(** * Arduino-MCP: the reactive automation core, embedded and verified

    Two programs are embedded here.

    - [Server]  : [arduino_mcp_server.py], the tool server.  Its global
      state ([arduino_state], [pending_actions], the serial connection) is
      one record [world]; every function of the source that reads or
      writes it is a computation in a small state-and-exception monad.
    - [Control] : [master_control.py], the interactive console.  Its
      [ArduinoController] object is a record, and each coroutine is a
      resumable task that runs from one [await] to the next.

    Python strings are [string]: one [ascii] stands for one character
    (code points below 256).  Python [int] is [Z].  A Python [float] is a
    [pyfloat]: not-a-number, an infinity, negative zero or a rational, so
    that comparisons are the IEEE ones on exact values. *)

From Stdlib Require Import ZArith QArith Qabs String Ascii List Bool Lia.
From Stdlib Require Import DecimalString Permutation.
Import ListNotations.

Open Scope string_scope.
Open Scope Z_scope.

(* ===================================================================== *)
(** * Python built-ins used by the two programs                           *)
(* ===================================================================== *)

Module Py.

(** [str.isspace] on one character, for code points below 256. *)
Definition is_space (c : ascii) : bool :=
  let n := N_of_ascii c in
  ((9 <=? n) && (n <=? 13) || (28 <=? n) && (n <=? 32)
   || (n =? 133) || (n =? 160))%N.

Definition is_digit (c : ascii) : bool :=
  let n := N_of_ascii c in ((48 <=? n) && (n <=? 57))%N.

Definition digit_value (c : ascii) : Z := Z.of_N (N_of_ascii c) - 48.

Definition rev_string (s : string) : string :=
  string_of_list_ascii (rev (list_ascii_of_string s)).

Fixpoint lstrip (s : string) : string :=
  match s with
  | String c r => if is_space c then lstrip r else s
  | EmptyString => EmptyString
  end.

Definition rstrip (s : string) : string := rev_string (lstrip (rev_string s)).

(** [s.strip()] *)
Definition strip (s : string) : string := rstrip (lstrip s).

(** [s.startswith(p)] *)
Definition startswith (s p : string) : bool := prefix p s.

(** [c in s] for a one-character [c]. *)
Fixpoint contains (c : ascii) (s : string) : bool :=
  match s with
  | String d r => Ascii.eqb d c || contains c r
  | EmptyString => false
  end.

(** [s.split(sep)] for a one-character separator. *)
Fixpoint split (sep : ascii) (s : string) : list string :=
  match s with
  | EmptyString => [EmptyString]
  | String c r =>
      if Ascii.eqb c sep then EmptyString :: split sep r
      else match split sep r with
           | h :: t => String c h :: t
           | [] => [String c EmptyString]
           end
  end.

(** [s.split(sep, maxsplit)] for a one-character separator. *)
Fixpoint split_max (sep : ascii) (s : string) (maxsplit : nat) {struct s}
  : list string :=
  match maxsplit with
  | O => [s]
  | S m =>
      match s with
      | EmptyString => [EmptyString]
      | String c r =>
          if Ascii.eqb c sep then EmptyString :: split_max sep r m
          else match split_max sep r maxsplit with
               | h :: t => String c h :: t
               | [] => [String c EmptyString]
               end
      end
  end.

(** [s[:n]] *)
Definition take (n : nat) (s : string) : string := substring 0 n s.

Fixpoint drop (n : nat) (s : string) : string :=
  match n, s with
  | O, _ => s
  | S m, String _ r => drop m r
  | S _, EmptyString => EmptyString
  end.

(** [str(n)] and [f"{n}"] for an [int]. *)
Definition str_int (n : Z) : string := NilZero.string_of_int (Z.to_int n).

(** [f"{n:02d}"]: at least two characters, padded with a zero on the left;
    a sign counts as a character. *)
Definition format_02d (n : Z) : string :=
  if (0 <=? n) && (n <? 10) then "0" ++ str_int n else str_int n.

(** The digits of [int(s)] after the sign: groups of decimal digits with
    single underscores between them. *)
Fixpoint int_digits (acc : Z) (after_digit : bool) (s : string) : option Z :=
  match s with
  | EmptyString => if after_digit then Some acc else None
  | String c r =>
      if is_digit c then int_digits (10 * acc + digit_value c) true r
      else if Ascii.eqb c "_" then
             if after_digit then int_digits acc false r else None
           else None
  end.

(** [int(s)]; [None] stands for [ValueError]. *)
Definition int (s : string) : option Z :=
  match strip s with
  | String "-" r => option_map Z.opp (int_digits 0 false r)
  | String "+" r => int_digits 0 false r
  | r => int_digits 0 false r
  end.

(** ** Floats *)

Inductive pyfloat : Type :=
| FNaN
| FInf (negative : bool)
| FNegZero
| FFin (q : Q).

Definition Qlt_bool (x y : Q) : bool := negb (Qle_bool y x).

(** The real number a finite float stands for. *)
Definition float_value (x : pyfloat) : option Q :=
  match x with
  | FFin q => Some q
  | FNegZero => Some 0%Q
  | _ => None
  end.

(** [x < y] *)
Definition float_lt (x y : pyfloat) : bool :=
  match x, y with
  | FNaN, _ | _, FNaN => false
  | FInf nx, FInf ny => nx && negb ny
  | FInf nx, _ => nx
  | _, FInf ny => negb ny
  | FNegZero, FNegZero => false
  | FNegZero, FFin q => Qlt_bool 0 q
  | FFin p, FNegZero => Qlt_bool p 0
  | FFin p, FFin q => Qlt_bool p q
  end.

(** [x == y] *)
Definition float_eq (x y : pyfloat) : bool :=
  match x, y with
  | FNaN, _ | _, FNaN => false
  | FInf nx, FInf ny => Bool.eqb nx ny
  | FInf _, _ | _, FInf _ => false
  | FNegZero, FNegZero => true
  | FNegZero, FFin q => Qeq_bool 0 q
  | FFin p, FNegZero => Qeq_bool p 0
  | FFin p, FFin q => Qeq_bool p q
  end.

(** [x >= y] *)
Definition float_ge (x y : pyfloat) : bool := float_lt y x || float_eq x y.

(** [x > y] *)
Definition float_gt (x y : pyfloat) : bool := float_lt y x.

Definition float_of_int (n : Z) : pyfloat := FFin (inject_Z n).

(** Rounding of a non-negative rational to the nearest integer, ties to
    the even one: the rounding of [format]. *)
Definition round_half_even (q : Q) : Z :=
  let a := Qnum q in
  let b := Zpos (Qden q) in
  let fl := a / b in
  match (2 * (a mod b)) ?= b with
  | Lt => fl
  | Gt => fl + 1
  | Eq => if Z.even fl then fl else fl + 1
  end.

Fixpoint zeros (n : nat) : string :=
  match n with O => EmptyString | S m => String "0" (zeros m) end.

Definition pad_zeros (width : nat) (s : string) : string :=
  zeros (width - String.length s) ++ s.

(** [f"{x:.<prec>f}"] *)
Definition format_fixed (prec : nat) (x : pyfloat) : string :=
  let frac (n : Z) :=
    match prec with
    | O => EmptyString
    | _ => "." ++ pad_zeros prec (str_int (n mod 10 ^ Z.of_nat prec))
    end in
  match x with
  | FNaN => "nan"
  | FInf neg => if neg then "-inf" else "inf"
  | FNegZero => "-0" ++ frac 0
  | FFin q =>
      let n := round_half_even (Qabs q * inject_Z (10 ^ Z.of_nat prec)) in
      (if Qlt_bool q 0 then "-" else "")
        ++ str_int (n / 10 ^ Z.of_nat prec) ++ frac n
  end.

End Py.

(* ===================================================================== *)
(** * arduino_mcp_server.py                                               *)
(* ===================================================================== *)

Module Server.
Import Py.

(** ** Data *)

(** [time.time()]: seconds since the epoch. *)
Definition timestamp := Q.

(** The global [arduino_state] dictionary: its five keys are fixed. *)
Record telemetry : Type := {
  timer_remaining : Z;
  state_timer_active : bool;
  clock_time : option string;
  distance : pyfloat;
  last_update : timestamp
}.

(** The [params] dictionary of a queued action.  Its keys are the ones
    [execute_action] reads; an absent key is [None]. *)
Record params : Type := {
  duration : option Z;
  minutes : option Z;
  seconds : option Z;
  interval : option Z;
  line1 : option string;
  line2 : option string;
  command : option string
}.

(** [{}] *)
Definition no_params : params :=
  {| duration := None; minutes := None; seconds := None; interval := None;
     line1 := None; line2 := None; command := None |}.

(** The ["trigger"] key of a queued action together with the target key
    that goes with it: the four dictionary shapes the source builds. *)
Inductive trigger : Type :=
| timer_zero
| time_equals (target_time : string)
| distance_less_than (target_distance : pyfloat)
| distance_update.

(** One entry of [pending_actions]. *)
Record action : Type := {
  action_trigger : trigger;
  action_type : string;
  action_params : params
}.

(** The global state of the module.  [sent] is what has been written to
    the serial port, one command per line.  [executed] is a history
    variable: the actions [execute_action] was called on, in order.
    [port_available] is the environment: whether opening the serial port
    succeeds. *)
Record world : Type := {
  arduino_state : telemetry;
  pending_actions : list action;
  connection_open : bool;
  port_available : bool;
  sent : list string;
  executed : list action
}.

Definition set_state (f : telemetry -> telemetry) (w : world) : world :=
  {| arduino_state := f (arduino_state w);
     pending_actions := pending_actions w;
     connection_open := connection_open w;
     port_available := port_available w;
     sent := sent w; executed := executed w |}.

Definition set_pending (f : list action -> list action) (w : world) : world :=
  {| arduino_state := arduino_state w;
     pending_actions := f (pending_actions w);
     connection_open := connection_open w;
     port_available := port_available w;
     sent := sent w; executed := executed w |}.

Definition set_open (b : bool) (w : world) : world :=
  {| arduino_state := arduino_state w;
     pending_actions := pending_actions w;
     connection_open := b;
     port_available := port_available w;
     sent := sent w; executed := executed w |}.

Definition set_sent (f : list string -> list string) (w : world) : world :=
  {| arduino_state := arduino_state w;
     pending_actions := pending_actions w;
     connection_open := connection_open w;
     port_available := port_available w;
     sent := f (sent w); executed := executed w |}.

Definition set_executed (f : list action -> list action) (w : world) : world :=
  {| arduino_state := arduino_state w;
     pending_actions := pending_actions w;
     connection_open := connection_open w;
     port_available := port_available w;
     sent := sent w; executed := f (executed w) |}.

(** The module as loaded: [arduino_state] and [pending_actions] as the
    source initialises them, no connection yet. *)
Definition initial_world (loaded_at : timestamp) (port : bool) : world :=
  {| arduino_state :=
       {| timer_remaining := 0; state_timer_active := false;
          clock_time := None; distance := FFin 0; last_update := loaded_at |};
     pending_actions := [];
     connection_open := false;
     port_available := port;
     sent := []; executed := [] |}.

(** ** Equality of queued actions, as [list.remove] sees it *)

Definition option_eqb {A} (eqb : A -> A -> bool) (x y : option A) : bool :=
  match x, y with
  | Some a, Some b => eqb a b
  | None, None => true
  | _, _ => false
  end.

Definition params_eqb (p q : params) : bool :=
  option_eqb Z.eqb (duration p) (duration q)
  && option_eqb Z.eqb (minutes p) (minutes q)
  && option_eqb Z.eqb (seconds p) (seconds q)
  && option_eqb Z.eqb (interval p) (interval q)
  && option_eqb String.eqb (line1 p) (line1 q)
  && option_eqb String.eqb (line2 p) (line2 q)
  && option_eqb String.eqb (command p) (command q).

Definition trigger_eqb (s t : trigger) : bool :=
  match s, t with
  | timer_zero, timer_zero => true
  | time_equals a, time_equals b => String.eqb a b
  | distance_less_than a, distance_less_than b => float_eq a b
  | distance_update, distance_update => true
  | _, _ => false
  end.

(** [a == b] on two action dictionaries. *)
Definition action_eqb (a b : action) : bool :=
  trigger_eqb (action_trigger a) (action_trigger b)
  && String.eqb (action_type a) (action_type b)
  && params_eqb (action_params a) (action_params b).

(** [l.remove(a)]: drops the first entry equal to [a]; [None] stands for
    the [ValueError] raised when there is none. *)
Fixpoint list_remove (a : action) (l : list action) : option (list action) :=
  match l with
  | [] => None
  | b :: r =>
      if action_eqb b a then Some r
      else option_map (cons b) (list_remove a r)
  end.

(** ** The monad: global state, and exceptions that keep the state *)

Inductive exn : Type :=
| ValueError
| IndexError
| ConnectionFailed.

Inductive result (A : Type) : Type :=
| Ok (a : A)
| Raise (e : exn).
Arguments Ok {A} a.
Arguments Raise {A} e.

Definition M (A : Type) : Type := world -> result A * world.

Definition ret {A} (a : A) : M A := fun w => (Ok a, w).

Definition bind {A B} (c : M A) (k : A -> M B) : M B :=
  fun w => match c w with
           | (Ok a, w') => k a w'
           | (Raise e, w') => (Raise e, w')
           end.

Definition raise {A} (e : exn) : M A := fun w => (Raise e, w).

(** [try: c  except Exception: h] *)
Definition try_except {A} (c : M A) (h : exn -> M A) : M A :=
  fun w => match c w with
           | (Ok a, w') => (Ok a, w')
           | (Raise e, w') => h e w'
           end.

Definition gets {A} (f : world -> A) : M A := fun w => (Ok (f w), w).

Definition modify (f : world -> world) : M unit := fun w => (Ok tt, f w).

Definition lift_option {A} (e : exn) (o : option A) : M A :=
  match o with Some a => ret a | None => raise e end.

Declare Scope py_scope.
Delimit Scope py_scope with py.
Notation "x <- c ;; k" := (bind c (fun x => k))
  (at level 61, c at next level, right associativity) : py_scope.
Notation "c ;; k" := (bind c (fun _ => k))
  (at level 61, right associativity) : py_scope.
Open Scope py_scope.

(** [for x in l: body x] *)
Fixpoint for_each {A} (l : list A) (body : A -> M unit) : M unit :=
  match l with
  | [] => ret tt
  | x :: r => body x ;; for_each r body
  end.

Definition exec {A} (c : M A) (w : world) : world := snd (c w).

(** ** The serial link *)

(** [get_arduino()]: the open connection, opened on demand. *)
Definition get_arduino : M unit :=
  fun w =>
    if connection_open w then (Ok tt, w)
    else if port_available w then (Ok tt, set_open true w)
    else (Raise ConnectionFailed, w).

(** [send_command(command)].  The connection is fetched outside the
    [try]; a write on an open connection succeeds.  The response string
    is not modelled: no caller looks at it. *)
Definition send_command (cmd : string) : M unit :=
  get_arduino ;;
  modify (set_sent (fun l => (l ++ [cmd])%list)).

(** ** Executing an action *)

Definition get_default {A} (o : option A) (default : A) : A :=
  match o with Some a => a | None => default end.

Definition execute_action (a : action) : M unit :=
  modify (set_executed (fun l => (l ++ [a])%list)) ;;
  let p := action_params a in
  try_except
    (if String.eqb (action_type a) "buzzer_beep" then
       send_command ("BUZZER:BEEP:" ++ str_int (get_default (duration p) 1000))
     else if String.eqb (action_type a) "start_timer" then
       let total_seconds :=
         get_default (minutes p) 0 * 60 + get_default (seconds p) 0 in
       send_command ("TM1637:COUNTDOWN:" ++ str_int total_seconds)
     else if String.eqb (action_type a) "led_blink" then
       send_command ("LED:BLINK:" ++ str_int (get_default (interval p) 1000))
     else if String.eqb (action_type a) "display_message" then
       send_command ("LCD:LINE1:" ++ get_default (line1 p) "") ;;
       send_command ("LCD:LINE2:" ++ get_default (line2 p) "")
     else if String.eqb (action_type a) "custom_command" then
       send_command (get_default (command p) "")
     else ret tt)
    (fun _ => ret tt).

(** [pending_actions.remove(a)] *)
Definition remove_pending (a : action) : M unit :=
  l <- gets pending_actions ;;
  l' <- lift_option ValueError (list_remove a l) ;;
  modify (set_pending (fun _ => l')).

(** ** The monitor: what it does with one line *)

Definition touch (now : timestamp) (f : telemetry -> telemetry) : M unit :=
  modify (set_state (fun t =>
    let t' := f t in
    {| timer_remaining := timer_remaining t';
       state_timer_active := state_timer_active t';
       clock_time := clock_time t';
       distance := distance t';
       last_update := now |})).

(** The [TIMER:REMAINING:] branch. *)
Definition on_timer_remaining (now : timestamp) (remaining : Z) : M unit :=
  touch now (fun t =>
    {| timer_remaining := remaining; state_timer_active := true;
       clock_time := clock_time t; distance := distance t;
       last_update := last_update t |}).

(** The [COUNTDOWN:FINISHED] branch. *)
Definition on_countdown_finished (now : timestamp) : M unit :=
  touch now (fun t =>
    {| timer_remaining := 0; state_timer_active := false;
       clock_time := clock_time t; distance := distance t;
       last_update := last_update t |}) ;;
  snapshot <- gets pending_actions ;;
  for_each snapshot (fun a =>
    match action_trigger a with
    | timer_zero => execute_action a ;; remove_pending a
    | _ => ret tt
    end).

(** The [CLOCK:LCD:] branch. *)
Definition on_clock (now : timestamp) (time_str : string) : M unit :=
  touch now (fun t =>
    {| timer_remaining := timer_remaining t;
       state_timer_active := state_timer_active t;
       clock_time := Some time_str; distance := distance t;
       last_update := last_update t |}) ;;
  snapshot <- gets pending_actions ;;
  for_each snapshot (fun a =>
    match action_trigger a with
    | time_equals target_time =>
        if String.eqb time_str target_time
        then execute_action a ;; remove_pending a
        else ret tt
    | _ => ret tt
    end).

(** The [DISTANCE:] branch. *)
Definition on_distance (now : timestamp) (d : pyfloat) : M unit :=
  touch now (fun t =>
    {| timer_remaining := timer_remaining t;
       state_timer_active := state_timer_active t;
       clock_time := clock_time t; distance := d;
       last_update := last_update t |}) ;;
  snapshot <- gets pending_actions ;;
  for_each snapshot (fun a =>
    match action_trigger a with
    | distance_update =>
        send_command ("LCD:LINE2:" ++ format_fixed 2 d ++ " cm       ")
    | _ => ret tt
    end) ;;
  snapshot <- gets pending_actions ;;
  for_each snapshot (fun a =>
    match action_trigger a with
    | distance_less_than target_distance =>
        if float_lt d target_distance
        then execute_action a ;; remove_pending a
        else ret tt
    | _ => ret tt
    end).

(** A status line, classified. *)
Inductive event : Type :=
| TimerRemaining (remaining : Z)
| TimerFinished
| ClockReport (time_str : string)
| DistanceReport (cm : pyfloat)
| Unrecognized.

Definition on_event (now : timestamp) (ev : event) : M unit :=
  match ev with
  | TimerRemaining remaining => on_timer_remaining now remaining
  | TimerFinished => on_countdown_finished now
  | ClockReport time_str => on_clock now time_str
  | DistanceReport cm => on_distance now cm
  | Unrecognized => ret tt
  end.

(** [parts[i]] *)
Definition item (parts : list string) (i : nat) : M string :=
  lift_option IndexError (nth_error parts i).

Section Ingestion.

(** [float(s)], the built-in; [None] stands for [ValueError]. *)
Variable py_float : string -> option pyfloat.

(** The prefix tests of the monitor and the parsing each branch does. *)
Definition classify (line : string) : M event :=
  if startswith line "TIMER:REMAINING:" then
    field <- item (split ":" line) 2 ;;
    remaining <- lift_option ValueError (int field) ;;
    ret (TimerRemaining remaining)
  else if startswith line "COUNTDOWN:FINISHED" then
    ret TimerFinished
  else if startswith line "CLOCK:LCD:" then
    time_str <- item (split_max ":" line 2) 2 ;;
    ret (ClockReport time_str)
  else if startswith line "DISTANCE:" then
    field <- item (split ":" line) 1 ;;
    d <- lift_option ValueError (py_float field) ;;
    ret (DistanceReport d)
  else ret Unrecognized.

(** One iteration of the loop of [monitor_arduino_status].  [incoming] is
    the line [readline] returns when [in_waiting > 0], and [None] when
    nothing is waiting. *)
Definition monitor_arduino_status (now : timestamp) (incoming : option string)
  : M unit :=
  try_except
    (get_arduino ;;
     match incoming with
     | Some raw =>
         let line := strip raw in
         ev <- classify line ;;
         on_event now ev
     | None => ret tt
     end)
    (fun _ => ret tt).

End Ingestion.

(** ** Tools

    What a tool returns.  The confirmation texts of the source are not
    modelled: [Confirmed] stands for any of them.  [Cleared count] stands
    for the text of [clear_all_pending_actions], which carries the count.
    [ErrorText] carries the text of an early [return "Error: ..."], and
    [NotConnected] stands for the text [test_connection] returns when the
    connection cannot be had. *)
Inductive reply : Type :=
| Confirmed
| Cleared (count : Z)
| ErrorText (msg : string)
| NotConnected.

(** *** LED and buzzer *)

Definition led_on : M reply := send_command "LED:ON" ;; ret Confirmed.

Definition led_off : M reply := send_command "LED:OFF" ;; ret Confirmed.

Definition led_blink (interval_ms : Z) : M reply :=
  send_command ("LED:BLINK:" ++ str_int interval_ms) ;; ret Confirmed.

Definition led_toggle : M reply := send_command "LED:TOGGLE" ;; ret Confirmed.

Definition buzzer_on : M reply := send_command "BUZZER:ON" ;; ret Confirmed.

Definition buzzer_off : M reply := send_command "BUZZER:OFF" ;; ret Confirmed.

Definition buzzer_beep (duration_ms : Z) : M reply :=
  send_command ("BUZZER:BEEP:" ++ str_int duration_ms) ;; ret Confirmed.

(** *** Character display *)

Definition lcd_write_line1 (text : string) : M reply :=
  let text := take 16 text in
  send_command ("LCD:LINE1:" ++ text) ;; ret Confirmed.

Definition lcd_write_line2 (text : string) : M reply :=
  let text := take 16 text in
  send_command ("LCD:LINE2:" ++ text) ;; ret Confirmed.

Definition lcd_clear : M reply := send_command "LCD:CLEAR" ;; ret Confirmed.

Definition lcd_backlight_on : M reply :=
  send_command "LCD:BACKLIGHT:ON" ;; ret Confirmed.

Definition lcd_backlight_off : M reply :=
  send_command "LCD:BACKLIGHT:OFF" ;; ret Confirmed.

(** A string is true when it is not empty. *)
Definition truthy (s : string) : bool :=
  match s with EmptyString => false | _ => true end.

Definition lcd_display_message (line1 line2 : string) : M reply :=
  let line1 := take 16 line1 in
  let line2 := take 16 line2 in
  send_command ("LCD:LINE1:" ++ line1) ;;
  (if truthy line2 then send_command ("LCD:LINE2:" ++ line2) else ret tt) ;;
  ret Confirmed.

(** [datetime.now()], through the [strftime] formats the source asks for. *)
Record datetime : Type := {
  strftime_H : string;
  strftime_M : string;
  strftime_S : string;
  strftime_mdY : string;
  strftime_a : string
}.

Definition lcd_show_current_time (now : datetime) : M reply :=
  send_command ("LCD:CLOCK:" ++ strftime_H now ++ ":" ++ strftime_M now ++ ":"
                ++ strftime_S now ++ ":" ++ strftime_mdY now ++ ":"
                ++ strftime_a now) ;;
  ret Confirmed.

Definition lcd_start_stopwatch : M reply :=
  send_command "LCD:STOPWATCH:START" ;; ret Confirmed.

Definition lcd_stop_stopwatch : M reply :=
  send_command "LCD:STOPWATCH:STOP" ;; ret Confirmed.

(** *** Numeric display *)

Definition display_number (number : Z) : M reply :=
  if (number <? -999) || (number >? 9999) then
    ret (ErrorText "Error: Number must be between -999 and 9999")
  else
    send_command ("TM1637:NUM:" ++ str_int number) ;; ret Confirmed.

(** [c.isdigit()] for code points below 256: the ten digits and the
    superscripts one, two and three. *)
Definition isdigit_char (c : ascii) : bool :=
  let n := N_of_ascii c in
  (is_digit c || (n =? 178) || (n =? 179) || (n =? 185))%N.

(** [s.isdigit()] *)
Definition isdigit (s : string) : bool :=
  truthy s && forallb isdigit_char (list_ascii_of_string s).

Definition display_time (time_hhmm : string) : M reply :=
  if negb (Nat.eqb (String.length time_hhmm) 4) || negb (isdigit time_hhmm) then
    ret (ErrorText "Error: Time must be exactly 4 digits in HHMM format (example: '1430' for 2:30 PM)")
  else
    send_command ("TM1637:NUM:" ++ time_hhmm) ;; ret Confirmed.

Definition display_current_time (now : datetime) : M reply :=
  send_command ("TM1637:CLOCK:" ++ strftime_H now ++ ":" ++ strftime_M now) ;;
  ret Confirmed.

Definition display_start_stopwatch : M reply :=
  send_command "TM1637:STOPWATCH:START" ;; ret Confirmed.

Definition display_stop_stopwatch : M reply :=
  send_command "TM1637:STOPWATCH:STOP" ;; ret Confirmed.

Definition display_clear : M reply :=
  send_command "TM1637:CLEAR" ;; ret Confirmed.

Definition display_brightness (level : Z) : M reply :=
  let level := Z.max 0 (Z.min 15 level) in
  send_command ("TM1637:BRIGHTNESS:" ++ str_int level) ;; ret Confirmed.

Definition display_timer (minutes seconds : Z) : M reply :=
  if (minutes <? 0) || (minutes >? 99) || (seconds <? 0) || (seconds >? 59) then
    ret (ErrorText "Error: Minutes must be 0-99 and seconds must be 0-59")
  else
    let total_seconds := minutes * 60 + seconds in
    send_command ("TM1637:COUNTDOWN:" ++ str_int total_seconds) ;;
    ret Confirmed.

(** *** Distance sensor and system tools that read no reply *)

Definition ultrasonic_start : M reply :=
  send_command "ULTRA:START" ;; ret Confirmed.

Definition ultrasonic_stop : M reply :=
  send_command "ULTRA:STOP" ;; ret Confirmed.

Definition explain_display_capabilities : M reply := ret Confirmed.

Definition get_system_status : M reply :=
  send_command "STATUS" ;; ret Confirmed.

Definition test_connection : M reply :=
  try_except (get_arduino ;; ret Confirmed) (fun _ => ret NotConnected).

Definition all_off : M reply :=
  send_command "LED:OFF" ;;
  send_command "BUZZER:OFF" ;;
  send_command "LCD:CLEAR" ;;
  send_command "TM1637:CLEAR" ;;
  send_command "ULTRA:STOP" ;;
  ret Confirmed.

Definition welcome_message (name : string) : M reply :=
  send_command "LCD:CLEAR" ;;
  send_command "LCD:LINE1:Welcome!" ;;
  send_command ("LCD:LINE2:" ++ take 16 name) ;;
  send_command "BUZZER:BEEP:200" ;;
  ret Confirmed.

Definition countdown_display (seconds : Z) : M reply :=
  if (seconds <? 0) || (seconds >? 5940) then
    ret (ErrorText "Error: Seconds must be between 0 and 5940 (99 minutes max)")
  else
    let mins := seconds / 60 in
    let secs := seconds mod 60 in
    let time_str := format_02d mins ++ format_02d secs in
    send_command ("TM1637:NUM:" ++ time_str) ;; ret Confirmed.

Definition display_info (title value : string) (show_number : option Z)
  : M reply :=
  send_command ("LCD:LINE1:" ++ take 16 title) ;;
  send_command ("LCD:LINE2:" ++ take 16 value) ;;
  match show_number with
  | Some n => send_command ("TM1637:NUM:" ++ str_int n) ;; ret Confirmed
  | None => ret Confirmed
  end.

Definition celebration : M reply :=
  send_command "LCD:LINE1:Celebration!" ;;
  send_command "LCD:LINE2:Hooray!" ;;
  send_command "LED:BLINK:200" ;;
  for_each (seq 0 3) (fun _ => send_command "BUZZER:BEEP:150") ;;
  send_command "TM1637:NUM:8888" ;;
  ret Confirmed.

(** *** Conditional execution *)

(** The parameter parsing that the three [when_...] tools each spell out.
    [inl msg] is the early [return msg]; [timer_error] is the text of it,
    which differs between the tools. *)
Definition parse_action_params (then_action action_params timer_error : string)
  : M (string + params) :=
  if String.eqb then_action "buzzer_beep" then
    d <- (if truthy action_params
          then lift_option ValueError (int action_params)
          else ret 1000) ;;
    ret (inr {| duration := Some d; minutes := None; seconds := None;
                interval := None; line1 := None; line2 := None;
                command := None |})
  else if String.eqb then_action "start_timer" then
    if contains ":" action_params then
      let parts := split ":" action_params in
      p0 <- item parts 0 ;;
      m <- lift_option ValueError (int p0) ;;
      p1 <- item parts 1 ;;
      s <- lift_option ValueError (int p1) ;;
      ret (inr {| duration := None; minutes := Some m; seconds := Some s;
                  interval := None; line1 := None; line2 := None;
                  command := None |})
    else ret (inl timer_error)
  else if String.eqb then_action "led_blink" then
    i <- (if truthy action_params
          then lift_option ValueError (int action_params)
          else ret 1000) ;;
    ret (inr {| duration := None; minutes := None; seconds := None;
                interval := Some i; line1 := None; line2 := None;
                command := None |})
  else if String.eqb then_action "display_message" then
    if contains "|" action_params then
      let parts := split "|" action_params in
      p0 <- item parts 0 ;;
      p1 <- item parts 1 ;;
      ret (inr {| duration := None; minutes := None; seconds := None;
                  interval := None; line1 := Some p0; line2 := Some p1;
                  command := None |})
    else
      ret (inr {| duration := None; minutes := None; seconds := None;
                  interval := None; line1 := Some action_params;
                  line2 := Some ""; command := None |})
  else ret (inr no_params).

Definition register (t : trigger) (then_action : string) (p : params)
  : M unit :=
  modify (set_pending (fun l =>
    (l ++ [ {| action_trigger := t; action_type := then_action;
               action_params := p |} ])%list)).

Definition when_timer_finishes (then_action action_params : string) : M reply :=
  r <- parse_action_params then_action action_params
         "Error: Timer format must be MM:SS (e.g., '02:00' for 2 minutes)" ;;
  match r with
  | inl msg => ret (ErrorText msg)
  | inr p => register timer_zero then_action p ;; ret Confirmed
  end.

(** [re.match(r'^\d{2}:\d{2}:\d{2}$', s)]: two digits, three times, with
    colons; [$] also matches before one final newline. *)
Definition is_hhmmss (s : string) : bool :=
  match list_ascii_of_string s with
  | [a; b; c1; c; d; c2; e; f] | [a; b; c1; c; d; c2; e; f; "010"%char] =>
      is_digit a && is_digit b && Ascii.eqb c1 ":" && is_digit c && is_digit d
      && Ascii.eqb c2 ":" && is_digit e && is_digit f
  | _ => false
  end.

Definition when_time_equals (target_time then_action action_params : string)
  : M reply :=
  if negb (is_hhmmss target_time) then
    ret (ErrorText "Error: Time must be in HH:MM:SS format (e.g., '14:30:00')")
  else
    r <- parse_action_params then_action action_params
           "Error: Timer format must be MM:SS" ;;
    match r with
    | inl msg => ret (ErrorText msg)
    | inr p => register (time_equals target_time) then_action p ;; ret Confirmed
    end.

Definition when_distance_less_than (distance_cm : pyfloat)
  (then_action action_params : string) : M reply :=
  r <- parse_action_params then_action action_params
         "Error: Timer format must be MM:SS" ;;
  match r with
  | inl msg => ret (ErrorText msg)
  | inr p =>
      register (distance_less_than distance_cm) then_action p ;; ret Confirmed
  end.

Definition show_live_ultrasonic_on_lcd : M reply :=
  send_command "ULTRA:START" ;;
  register distance_update "update_lcd_distance" no_params ;;
  send_command "LCD:LINE1:Distance:" ;;
  ret Confirmed.

(** Reads [arduino_state] and [pending_actions] to build its report. *)
Definition get_current_status (now : timestamp) : M reply := ret Confirmed.

Definition clear_all_pending_actions : M reply :=
  l <- gets pending_actions ;;
  let count := Z.of_nat (List.length l) in
  modify (set_pending (fun _ => [])) ;;
  ret (Cleared count).

Section Replies.

Variable py_float : string -> option pyfloat.

(** The line a tool reads right after its command, when one is waiting,
    parsed the way [ultrasonic_read] and [proximity_alert] do. *)
Definition read_ultra (waiting : option string) : option pyfloat :=
  match waiting with
  | Some raw =>
      let response := strip raw in
      if startswith response "ULTRA:" then
        match nth_error (split ":" response) 1 with
        | Some field => py_float field
        | None => None
        end
      else None
  | None => None
  end.

Definition ultrasonic_read (waiting : option string) : M reply :=
  get_arduino ;;
  send_command "ULTRA:READ" ;;
  match read_ultra waiting with
  | Some _ => ret Confirmed
  | None => ret (ErrorText "Error reading distance from ultrasonic sensor")
  end.

Definition proximity_alert (waiting : option string) : M reply :=
  get_arduino ;;
  send_command "ULTRA:READ" ;;
  let distance :=
    match read_ultra waiting with Some d => d | None => float_of_int (-1) end in
  if float_lt distance (float_of_int 0) then
    ret (ErrorText "ERROR: Could not read distance from ultrasonic sensor")
  else if float_lt distance (float_of_int 10) then
    send_command "BUZZER:ON" ;;
    send_command "LED:BLINK:100" ;;
    send_command "LCD:LINE1:WARNING!" ;;
    send_command "LCD:LINE2:Too Close!" ;;
    ret Confirmed
  else if float_lt distance (float_of_int 30) then
    send_command "BUZZER:OFF" ;;
    send_command "LED:ON" ;;
    send_command "LCD:LINE1:Caution" ;;
    send_command ("LCD:LINE2:" ++ format_fixed 1 distance ++ " cm") ;;
    ret Confirmed
  else
    send_command "LED:OFF" ;;
    send_command "BUZZER:OFF" ;;
    send_command "LCD:LINE1:Clear" ;;
    send_command ("LCD:LINE2:" ++ format_fixed 1 distance ++ " cm") ;;
    ret Confirmed.

(** Every tool of the server, with its arguments and with what it reads
    from the clock or the serial port. *)
Inductive tool_call : Type :=
| Led_on | Led_off | Led_blink (interval_ms : Z) | Led_toggle
| Buzzer_on | Buzzer_off | Buzzer_beep (duration_ms : Z)
| Lcd_write_line1 (text : string) | Lcd_write_line2 (text : string)
| Lcd_clear | Lcd_backlight_on | Lcd_backlight_off
| Lcd_display_message (line1 line2 : string)
| Lcd_show_current_time (now : datetime)
| Lcd_start_stopwatch | Lcd_stop_stopwatch
| Display_number (number : Z) | Display_time (time_hhmm : string)
| Display_current_time (now : datetime)
| Display_start_stopwatch | Display_stop_stopwatch | Display_clear
| Display_brightness (level : Z) | Display_timer (minutes seconds : Z)
| Ultrasonic_start | Ultrasonic_stop | Ultrasonic_read (waiting : option string)
| Explain_display_capabilities | Get_system_status | Test_connection | All_off
| Welcome_message (name : string) | Proximity_alert (waiting : option string)
| Countdown_display (seconds : Z)
| Display_info (title value : string) (show_number : option Z)
| Celebration
| When_timer_finishes (then_action action_params : string)
| When_time_equals (target_time then_action action_params : string)
| When_distance_less_than (distance_cm : pyfloat)
    (then_action action_params : string)
| Show_live_ultrasonic_on_lcd
| Get_current_status (now : timestamp)
| Clear_all_pending_actions.

Definition call (t : tool_call) : M reply :=
  match t with
  | Led_on => led_on
  | Led_off => led_off
  | Led_blink i => led_blink i
  | Led_toggle => led_toggle
  | Buzzer_on => buzzer_on
  | Buzzer_off => buzzer_off
  | Buzzer_beep d => buzzer_beep d
  | Lcd_write_line1 s => lcd_write_line1 s
  | Lcd_write_line2 s => lcd_write_line2 s
  | Lcd_clear => lcd_clear
  | Lcd_backlight_on => lcd_backlight_on
  | Lcd_backlight_off => lcd_backlight_off
  | Lcd_display_message a b => lcd_display_message a b
  | Lcd_show_current_time now => lcd_show_current_time now
  | Lcd_start_stopwatch => lcd_start_stopwatch
  | Lcd_stop_stopwatch => lcd_stop_stopwatch
  | Display_number n => display_number n
  | Display_time s => display_time s
  | Display_current_time now => display_current_time now
  | Display_start_stopwatch => display_start_stopwatch
  | Display_stop_stopwatch => display_stop_stopwatch
  | Display_clear => display_clear
  | Display_brightness l => display_brightness l
  | Display_timer m s => display_timer m s
  | Ultrasonic_start => ultrasonic_start
  | Ultrasonic_stop => ultrasonic_stop
  | Ultrasonic_read r => ultrasonic_read r
  | Explain_display_capabilities => explain_display_capabilities
  | Get_system_status => get_system_status
  | Test_connection => test_connection
  | All_off => all_off
  | Welcome_message n => welcome_message n
  | Proximity_alert r => proximity_alert r
  | Countdown_display s => countdown_display s
  | Display_info t v n => display_info t v n
  | Celebration => celebration
  | When_timer_finishes a p => when_timer_finishes a p
  | When_time_equals t a p => when_time_equals t a p
  | When_distance_less_than d a p => when_distance_less_than d a p
  | Show_live_ultrasonic_on_lcd => show_live_ultrasonic_on_lcd
  | Get_current_status now => get_current_status now
  | Clear_all_pending_actions => clear_all_pending_actions
  end.

End Replies.

(** ** Running the monitor over what it receives *)

(** The monitor has read a line at some time and classified it. *)
Definition delivery : Type := (timestamp * event)%type.

Definition deliver (w : world) (d : delivery) : world :=
  exec (on_event (fst d) (snd d)) w.

Definition run_events (ds : list delivery) (w : world) : world :=
  fold_left deliver ds w.

(** ** The rule engine in the words of its contract, for comparison *)

(** Which pending rule an event matches. *)
Definition matches (ev : event) (a : action) : bool :=
  match ev, action_trigger a with
  | TimerFinished, timer_zero => true
  | ClockReport s, time_equals target => String.eqb s target
  | DistanceReport cm, distance_less_than t => float_lt cm t
  | _, _ => false
  end.

Definition is_distance_update (a : action) : bool :=
  match action_trigger a with distance_update => true | _ => false end.

Definition is_timer_zero (a : action) : bool :=
  match action_trigger a with timer_zero => true | _ => false end.

(** The commands an action stands for. *)
Definition commands_of (a : action) : list string :=
  let p := action_params a in
  if String.eqb (action_type a) "buzzer_beep" then
    ["BUZZER:BEEP:" ++ str_int (get_default (duration p) 1000)]
  else if String.eqb (action_type a) "start_timer" then
    ["TM1637:COUNTDOWN:"
       ++ str_int (get_default (minutes p) 0 * 60 + get_default (seconds p) 0)]
  else if String.eqb (action_type a) "led_blink" then
    ["LED:BLINK:" ++ str_int (get_default (interval p) 1000)]
  else if String.eqb (action_type a) "display_message" then
    ["LCD:LINE1:" ++ get_default (line1 p) "";
     "LCD:LINE2:" ++ get_default (line2 p) ""]
  else if String.eqb (action_type a) "custom_command" then
    [get_default (command p) ""]
  else [].

(** The display updates a distance report causes on its own. *)
Definition echo_of (ev : event) (pending : list action) : list string :=
  match ev with
  | DistanceReport d =>
      map (fun _ => "LCD:LINE2:" ++ format_fixed 2 d ++ " cm       ")
          (filter is_distance_update pending)
  | _ => []
  end.

(** The telemetry after an event. *)
Definition apply_event (now : timestamp) (ev : event) (t : telemetry)
  : telemetry :=
  match ev with
  | TimerRemaining remaining =>
      {| timer_remaining := remaining; state_timer_active := true;
         clock_time := clock_time t; distance := distance t;
         last_update := now |}
  | TimerFinished =>
      {| timer_remaining := 0; state_timer_active := false;
         clock_time := clock_time t; distance := distance t;
         last_update := now |}
  | ClockReport s =>
      {| timer_remaining := timer_remaining t;
         state_timer_active := state_timer_active t;
         clock_time := Some s; distance := distance t;
         last_update := now |}
  | DistanceReport d =>
      {| timer_remaining := timer_remaining t;
         state_timer_active := state_timer_active t;
         clock_time := clock_time t; distance := d;
         last_update := now |}
  | Unrecognized => t
  end.



Definition pyfloat_eq_dec (x y : pyfloat) : {x = y} + {x <> y}.
Proof.
  decide equality.
  - apply Bool.bool_dec.
  - destruct q as [a b], q0 as [c d].
    destruct (Z.eq_dec a c); [| right; congruence].
    destruct (Pos.eq_dec b d); [left | right]; congruence.
Defined.

Definition action_eq_dec (a b : action) : {a = b} + {a <> b}.
Proof.
  pose proof string_dec. pose proof Z.eq_dec. pose proof pyfloat_eq_dec.
  assert (forall x y : option Z, {x = y} + {x <> y}) by decide equality.
  assert (forall x y : option string, {x = y} + {x <> y}) by decide equality.
  assert (forall x y : params, {x = y} + {x <> y}) by decide equality.
  assert (forall x y : trigger, {x = y} + {x <> y}) by decide equality.
  decide equality.
Defined.

(** How many times the very rule [a] stands in a list of rules. *)
Definition occurrences (a : action) (l : list action) : nat :=
  count_occ action_eq_dec l a.

(** ** Vocabulary for the statements below *)

(** One turn of the loops that fire rules: a rule that meets [cond] is
    executed and then removed. *)
Definition fire (cond : action -> bool) (a : action) : M unit :=
  if cond a then execute_action a ;; remove_pending a else ret tt.

(** From [w] to [w'] the commands [cmds] were sent and the actions [acts]
    executed, with the connection open at the end. *)
Record grows (w w' : world) (cmds : list string) (acts : list action)
  : Prop := {
  grows_sent : sent w' = (sent w ++ cmds)%list;
  grows_executed : executed w' = (executed w ++ acts)%list;
  grows_open : connection_open w' = true;
  grows_port : port_available w' = port_available w
}.

(** The connection is open or can be opened. *)
Definition reachable (w : world) : bool :=
  connection_open w || port_available w.

(** The rule [when_timer_finishes("buzzer_beep", "500")] queues. *)
Definition beep_500 : action :=
  {| action_trigger := timer_zero; action_type := "buzzer_beep";
     action_params :=
       {| duration := Some 500; minutes := None; seconds := None;
          interval := None; line1 := None; line2 := None;
          command := None |} |}.


(** The registrations among the tool calls, with the trigger they ask
    for; a [when_time_equals] whose target is not a time is left out. *)
Definition registration_of (tc : tool_call)
  : option (trigger * string * string) :=
  match tc with
  | When_timer_finishes a p => Some (timer_zero, a, p)
  | When_time_equals target a p =>
      if is_hhmmss target then Some (time_equals target, a, p) else None
  | When_distance_less_than d a p => Some (distance_less_than d, a, p)
  | _ => None
  end.

(** A computation that leaves [arduino_state] as it found it. *)
Definition keeps_telemetry {A} (c : M A) : Prop :=
  forall w, arduino_state (snd (c w)) = arduino_state w.

(** The module as loaded, once the connection has been opened. *)
Definition ready : world := set_open true (initial_world 0%Q true).

(** ** Vocabulary for the further properties *)

(** A computation that only adds: what was pending and what was sent
    before are still there afterwards, in front and in the same order, and
    no action has been executed. *)
Definition only_adds {A} (c : M A) : Prop :=
  forall w,
    (exists rules, pending_actions (snd (c w)) = (pending_actions w ++ rules)%list)
    /\ (exists cmds, sent (snd (c w)) = (sent w ++ cmds)%list)
    /\ executed (snd (c w)) = executed w.


(** A computation that changes nothing when the connection is closed and
    cannot be opened. *)
Definition inert {A} (c : M A) : Prop :=
  forall w, reachable w = false -> snd (c w) = w.

(** A computation that sends nothing when the connection is closed and
    cannot be opened, and leaves it so. *)
Definition mute {A} (c : M A) : Prop :=
  forall w, reachable w = false ->
    sent (snd (c w)) = sent w /\ executed (snd (c w)) = executed w
    /\ reachable (snd (c w)) = false.

(** The tools that read a reply from the port after their command. *)
Definition reads_reply (tc : tool_call) : bool :=
  match tc with
  | Ultrasonic_read _ | Proximity_alert _ => true
  | _ => false
  end.

Definition is_clear_all (tc : tool_call) : bool :=
  match tc with Clear_all_pending_actions => true | _ => false end.

(** The rules no event of [ds] matches. *)
Definition survives (ds : list delivery) (a : action) : bool :=
  forallb (fun d => negb (matches (snd d) a)) ds.

(** The last character of a string, if it has one. *)
Fixpoint last_char (s : string) : option ascii :=
  match s with
  | EmptyString => None
  | String c EmptyString => Some c
  | String _ r => last_char r
  end.

(** The rules a sequence of events executes out of a pending list, in the
    order in which they are executed. *)
Fixpoint fired (ds : list delivery) (pending : list action) : list action :=
  match ds with
  | [] => []
  | d :: ds' =>
      (filter (matches (snd d)) pending
       ++ fired ds' (filter (fun a => negb (matches (snd d) a)) pending))%list
  end.

(** A tool that never answers with an error text. *)
Definition confirms (c : M reply) : Prop :=
  forall w msg, fst (c w) <> Ok (ErrorText msg).

(** A tool that has changed nothing when it answers with an error
    text. *)
Definition checks_first (c : M reply) : Prop :=
  forall w msg, fst (c w) = Ok (ErrorText msg) -> snd (c w) = w.

(** [f"{n:02d}"] has two characters and reads back as [n]. *)
Definition two_digits (n : Z) : bool :=
  Nat.eqb (String.length (format_02d n)) 2
  && match int (format_02d n) with Some m => m =? n | None => false end.

Section MonitorRuns.

Variable py_float : string -> option pyfloat.

(** The loop of the monitor, iteration after iteration: each with the
    time it runs at and the line that is waiting, if any. *)
Definition run_monitor (inputs : list (timestamp * option string)) (w : world)
  : world :=
  fold_left
    (fun w i => exec (monitor_arduino_status py_float (fst i) (snd i)) w)
    inputs w.

End MonitorRuns.

End Server.

(* ===================================================================== *)
(** * master_control.py                                                   *)
(* ===================================================================== *)

Module Control.
Import Py.

(** ** More string built-ins, used by [process_command] *)

(** [c.lower()] for code points below 256. *)
Definition lower_char (c : ascii) : ascii :=
  let n := N_of_ascii c in
  if ((65 <=? n) && (n <=? 90)
      || (192 <=? n) && (n <=? 222) && negb (n =? 215))%N
  then ascii_of_N (n + 32) else c.

Fixpoint lower (s : string) : string :=
  match s with
  | String c r => String (lower_char c) (lower r)
  | EmptyString => EmptyString
  end.

(** [s.split()]: the words between runs of white space.  [word] is the
    word being read, in reverse. *)
Fixpoint words_from (word : list ascii) (s : string) : list string :=
  let flush (rest : list string) :=
    match word with
    | [] => rest
    | _ => string_of_list_ascii (rev word) :: rest
    end in
  match s with
  | EmptyString => flush []
  | String c r =>
      if is_space c then flush (words_from [] r)
      else words_from (c :: word) r
  end.

Definition split_words (s : string) : list string := words_from [] s.

(** What follows the first occurrence of [sep] in [s]:
    [s.split(sep, 1)[1]], and [None] for the [IndexError] when [sep]
    does not occur. *)
Fixpoint after_first (sep s : string) : option string :=
  if prefix sep s then Some (drop (String.length sep) s)
  else match s with
       | String _ r => after_first sep r
       | EmptyString => None
       end.

(** ** The controller object *)

(** What the program does to the outside: a line written to the serial
    port, or a coroutine going to sleep for some milliseconds. *)
Inductive io : Type :=
| Write (line : string)
| Sleep (ms : Z).

(** [ArduinoController].  [arduino] is [None] before [connect] succeeds,
    and then [Some b] with [b] false once the port is closed.  [log] is
    what the program has done so far. *)
Record controller : Type := {
  arduino : option bool;
  running : bool;
  ultrasonic_active : bool;
  clock_active : bool;
  timer_active : bool;
  timer_seconds : Z;
  lcd_clock_active : bool;
  log : list io
}.

Definition with_log (f : list io -> list io) (c : controller) : controller :=
  {| arduino := arduino c; running := running c;
     ultrasonic_active := ultrasonic_active c;
     clock_active := clock_active c; timer_active := timer_active c;
     timer_seconds := timer_seconds c;
     lcd_clock_active := lcd_clock_active c; log := f (log c) |}.

Definition with_clock_active (b : bool) (c : controller) : controller :=
  {| arduino := arduino c; running := running c;
     ultrasonic_active := ultrasonic_active c;
     clock_active := b; timer_active := timer_active c;
     timer_seconds := timer_seconds c;
     lcd_clock_active := lcd_clock_active c; log := log c |}.

Definition with_timer_active (b : bool) (c : controller) : controller :=
  {| arduino := arduino c; running := running c;
     ultrasonic_active := ultrasonic_active c;
     clock_active := clock_active c; timer_active := b;
     timer_seconds := timer_seconds c;
     lcd_clock_active := lcd_clock_active c; log := log c |}.

Definition with_lcd_clock_active (b : bool) (c : controller) : controller :=
  {| arduino := arduino c; running := running c;
     ultrasonic_active := ultrasonic_active c;
     clock_active := clock_active c; timer_active := timer_active c;
     timer_seconds := timer_seconds c;
     lcd_clock_active := b; log := log c |}.

Definition with_ultrasonic_active (b : bool) (c : controller) : controller :=
  {| arduino := arduino c; running := running c;
     ultrasonic_active := b;
     clock_active := clock_active c; timer_active := timer_active c;
     timer_seconds := timer_seconds c;
     lcd_clock_active := lcd_clock_active c; log := log c |}.

(** The controller after [connect()] succeeded and [main] set
    [running]. *)
Definition connected : controller :=
  {| arduino := Some true; running := true; ultrasonic_active := false;
     clock_active := false; timer_active := false; timer_seconds := 0;
     lcd_clock_active := false; log := [] |}.

(** [send_command]: the line is written when the port is there and open;
    a failing write is caught. *)
Definition send_command (cmd : string) (c : controller) : controller :=
  match arduino c with
  | Some true => with_log (fun l => (l ++ [Write cmd])%list) c
  | _ => c
  end.

Definition sleeping (ms : Z) (c : controller) : controller :=
  with_log (fun l => (l ++ [Sleep ms])%list) c.

Definition led_on := send_command "LED:ON".
Definition led_off := send_command "LED:OFF".
Definition led_blink (interval : Z) :=
  send_command ("LED:BLINK:" ++ str_int interval).
Definition led_toggle := send_command "LED:TOGGLE".
Definition buzzer_on := send_command "BUZZER:ON".
Definition buzzer_off := send_command "BUZZER:OFF".
Definition buzzer_beep (duration : Z) :=
  send_command ("BUZZER:BEEP:" ++ str_int duration).
Definition lcd_write (line : Z) (text : string) :=
  send_command ("LCD:LINE" ++ str_int line ++ ":" ++ text).
Definition lcd_clear := send_command "LCD:CLEAR".
Definition display_number (number : Z) :=
  send_command ("TM1637:NUM:" ++ str_int number).
Definition display_clear := send_command "TM1637:CLEAR".
Definition display_brightness (level : Z) :=
  let level := Z.max 0 (Z.min 15 level) in
  send_command ("TM1637:BRIGHTNESS:" ++ str_int level).
Definition ultrasonic_start (c : controller) :=
  with_ultrasonic_active true (send_command "ULTRA:START" c).
Definition ultrasonic_stop (c : controller) :=
  with_ultrasonic_active false (send_command "ULTRA:STOP" c).
Definition ultrasonic_read := send_command "ULTRA:READ".
Definition get_status := send_command "STATUS".
Definition stop_clock := with_clock_active false.
Definition stop_timer := with_timer_active false.
Definition stop_lcd_clock := with_lcd_clock_active false.

(** ** Coroutines *)

(** [datetime.now()], through the formats the coroutines ask for. *)
Record wallclock : Type := {
  strftime_HM : string;        (* "%H%M" *)
  strftime_HMS : string;       (* "%H:%M:%S" *)
  strftime_date : string       (* "%d/%m/%Y %a" *)
}.

(** A coroutine between two runs: where it will go on from. *)
Inductive task : Type :=
| Clock_created
| Clock_sleeping
| Countdown_created (minutes seconds : Z)
| Countdown_sleeping (total_seconds : Z)
| Countdown_beeping (beeps_left : nat)
| Lcd_clock_created
| Lcd_clock_sleeping
| Finished.

(** The loop of [display_clock], from its test. *)
Definition clock_loop (now : wallclock) (c : controller) : controller * task :=
  if clock_active c && running c then
    let c := send_command ("TM1637:NUM:" ++ strftime_HM now) c in
    (sleeping 1000 c, Clock_sleeping)
  else (c, Finished).

(** The loop of [display_countdown], from its test, with the first beep
    when the count is at zero. *)
Definition countdown_loop (total_seconds : Z) (c : controller)
  : controller * task :=
  if (0 <=? total_seconds) && timer_active c && running c then
    let mins := total_seconds / 60 in
    let secs := total_seconds mod 60 in
    let time_str := format_02d mins ++ format_02d secs in
    let c := send_command ("TM1637:NUM:" ++ time_str) c in
    if total_seconds =? 0 then
      let c := buzzer_beep 300 c in
      (sleeping 500 c, Countdown_beeping 2)
    else
      (sleeping 1000 c, Countdown_sleeping (total_seconds - 1))
  else (with_timer_active false c, Finished).

(** The loop of [lcd_clock], from its test. *)
Definition lcd_clock_loop (now : wallclock) (c : controller)
  : controller * task :=
  if running c && lcd_clock_active c then
    let c := send_command ("LCD:LINE1:" ++ strftime_HMS now) c in
    let c := send_command ("LCD:LINE2:" ++ strftime_date now) c in
    (sleeping 1000 c, Lcd_clock_sleeping)
  else (with_lcd_clock_active false c, Finished).

(** A coroutine runs from where it stands to its next [await], or to its
    end. *)
Definition resume (now : wallclock) (t : task) (c : controller)
  : controller * task :=
  match t with
  | Clock_created => clock_loop now (with_clock_active true c)
  | Clock_sleeping => clock_loop now c
  | Countdown_created minutes seconds =>
      let c := with_timer_active true c in
      let total_seconds := minutes * 60 + seconds in
      countdown_loop total_seconds c
  | Countdown_sleeping total_seconds => countdown_loop total_seconds c
  | Countdown_beeping (S k) =>
      let c := buzzer_beep 300 c in
      (sleeping 500 c, Countdown_beeping k)
  | Countdown_beeping O => (with_timer_active false c, Finished)
  | Lcd_clock_created => lcd_clock_loop now (with_lcd_clock_active true c)
  | Lcd_clock_sleeping => lcd_clock_loop now c
  | Finished => (c, Finished)
  end.

(** A coroutine run again and again with nothing else in between, until
    it ends or [fuel] runs out. *)
Fixpoint run_alone (fuel : nat) (now : wallclock) (t : task) (c : controller)
  : controller * task :=
  match fuel with
  | O => (c, t)
  | S fuel' =>
      match t with
      | Finished => (c, Finished)
      | _ => let (c', t') := resume now t c in run_alone fuel' now t' c'
      end
  end.

(** ** The event loop: the controller and the coroutines created so far *)

Record system : Type := {
  ctl : controller;
  tasks : list task
}.

Definition update (f : controller -> controller) (s : system) : system :=
  {| ctl := f (ctl s); tasks := tasks s |}.

(** [asyncio.create_task(coroutine)] *)
Definition create_task (t : task) (s : system) : system :=
  {| ctl := ctl s; tasks := (tasks s ++ [t])%list |}.

Fixpoint replace_nth {A} (i : nat) (x : A) (l : list A) : list A :=
  match l, i with
  | [], _ => []
  | _ :: r, O => x :: r
  | y :: r, S j => y :: replace_nth j x r
  end.

(** The event loop runs the [i]th coroutine to its next [await]. *)
Definition wake (i : nat) (now : wallclock) (s : system) : system :=
  match nth_error (tasks s) i with
  | Some t =>
      let (c, t') := resume now t (ctl s) in
      {| ctl := c; tasks := replace_nth i t' (tasks s) |}
  | None => s
  end.

(** [int(parts[2]) if len(parts) > 2 else default] *)
Definition int_arg (parts : list string) (default : Z) : option Z :=
  match nth_error parts 2 with
  | Some a => int a
  | None => Some default
  end.

(** [process_command(controller, cmd)]: the system afterwards, and the
    returned flag, false for [exit] and [quit]. *)
Definition process_command (cmd : string) (s : system) : system * bool :=
  let cmd := lower (strip cmd) in
  let parts := split_words cmd in
  match parts with
  | [] => (s, true)
  | device :: args =>
      if String.eqb device "led" then
        match args with
        | [] => (s, true)
        | a :: _ =>
            if String.eqb a "on" then (update led_on s, true)
            else if String.eqb a "off" then (update led_off s, true)
            else if String.eqb a "blink" then
              match int_arg parts 500 with
              | Some interval => (update (led_blink interval) s, true)
              | None => (s, true)
              end
            else if String.eqb a "toggle" then (update led_toggle s, true)
            else (s, true)
        end
      else if String.eqb device "buzzer" then
        match args with
        | [] => (s, true)
        | a :: _ =>
            if String.eqb a "on" then (update buzzer_on s, true)
            else if String.eqb a "off" then (update buzzer_off s, true)
            else if String.eqb a "beep" then
              match int_arg parts 100 with
              | Some duration => (update (buzzer_beep duration) s, true)
              | None => (s, true)
              end
            else (s, true)
        end
      else if String.eqb device "lcd" then
        match args with
        | [] => (s, true)
        | a :: _ =>
            if String.eqb a "clear" then (update lcd_clear s, true)
            else if String.eqb a "clock" then
              (create_task Lcd_clock_created s, true)
            else if String.eqb a "stop" then
              (update (sleeping 100) (update stop_lcd_clock s), true)
            else if startswith a "1:" then
              match after_first "1:" cmd with
              | Some text => (update (lcd_write 1 text) s, true)
              | None => (s, true)
              end
            else if startswith a "2:" then
              match after_first "2:" cmd with
              | Some text => (update (lcd_write 2 text) s, true)
              | None => (s, true)
              end
            else (s, true)
        end
      else if String.eqb device "display" then
        match args with
        | [] => (s, true)
        | a :: _ =>
            if String.eqb a "clear" then (update display_clear s, true)
            else if String.eqb a "clock" then
              (create_task Clock_created (update stop_timer s), true)
            else if startswith a "timer:" then
              let s := update stop_clock s in
              match nth_error (split_max ":" a 1) 1 with
              | Some time_part =>
                  match map int (split ":" time_part) with
                  | [Some mins; Some secs] =>
                      (create_task (Countdown_created mins secs) s, true)
                  | _ => (s, true)
                  end
              | None => (s, true)
              end
            else if String.eqb a "stop" then
              (update stop_timer (update stop_clock s), true)
            else if String.eqb a "brightness" then
              match int_arg parts 15 with
              | Some level => (update (display_brightness level) s, true)
              | None => (s, true)
              end
            else
              match int a with
              | Some number => (update (display_number number) s, true)
              | None => (s, true)
              end
        end
      else if String.eqb device "ultra" then
        match args with
        | [] => (s, true)
        | a :: _ =>
            if String.eqb a "start" then (update ultrasonic_start s, true)
            else if String.eqb a "stop" then (update ultrasonic_stop s, true)
            else if String.eqb a "read" then (update ultrasonic_read s, true)
            else (s, true)
        end
      else if String.eqb device "status" then (update get_status s, true)
      else if String.eqb device "help" then (s, true)
      else if String.eqb device "exit" || String.eqb device "quit" then
        (s, false)
      else (s, true)
  end.

(** What happens, in order: a command typed at the prompt, or the event
    loop running one coroutine. *)
Inductive step : Type :=
| Command (cmd : string)
| Wake (i : nat) (now : wallclock).

Definition do_step (st : step) (s : system) : system :=
  match st with
  | Command cmd => fst (process_command cmd s)
  | Wake i now => wake i now s
  end.

Definition run (steps : list step) (s : system) : system :=
  fold_left (fun s st => do_step st s) steps s.

(** The physical display a coroutine writes to. *)
Inductive slot : Type := NumericDisplay | CharacterDisplay.

Definition slot_of (t : task) : option slot :=
  match t with
  | Clock_created | Clock_sleeping
  | Countdown_created _ _ | Countdown_sleeping _ | Countdown_beeping _ =>
      Some NumericDisplay
  | Lcd_clock_created | Lcd_clock_sleeping => Some CharacterDisplay
  | Finished => None
  end.

(** A coroutine that would write to its display if it ran now. *)
Definition writes_next (c : controller) (t : task) : bool :=
  match t with
  | Clock_created => running c
  | Clock_sleeping => clock_active c && running c
  | Countdown_created m s => (0 <=? m * 60 + s) && running c
  | Countdown_sleeping n => (0 <=? n) && timer_active c && running c
  | Lcd_clock_created => running c
  | Lcd_clock_sleeping => running c && lcd_clock_active c
  | Countdown_beeping _ | Finished => false
  end.

Definition on_numeric (t : task) : bool :=
  match slot_of t with Some NumericDisplay => true | _ => false end.

(** The routines of the numeric display that are still running. *)
Definition running_on_numeric (s : system) : list task :=
  filter (fun t => on_numeric t && writes_next (ctl s) t) (tasks s).

(** ** The session *)

(** [close]: the flag goes down, and the port, if there is one, is
    closed. *)
Definition close (c : controller) : controller :=
  {| arduino := match arduino c with Some _ => Some false | None => None end;
     running := false;
     ultrasonic_active := ultrasonic_active c;
     clock_active := clock_active c; timer_active := timer_active c;
     timer_seconds := timer_seconds c;
     lcd_clock_active := lcd_clock_active c; log := log c |}.

(** The loop of [main] once [connect] has succeeded, and its [finally]:
    commands are processed as they are typed, with the coroutines running
    in between, until one returns false or the input ends; then the
    controller is closed.  [running] is true all through the loop, [close]
    being the only place that clears it.  An interrupt from the keyboard
    is not modelled. *)
Fixpoint main_loop (steps : list step) (s : system) : system :=
  match steps with
  | [] => update close s
  | Command cmd :: rest =>
      let (s', go_on) := process_command cmd s in
      if go_on then main_loop rest s' else update close s'
  | Wake i now :: rest => main_loop rest (wake i now s)
  end.

(** ** Vocabulary for the statements below *)

(** The lines of a log that write a value to the numeric display. *)
Definition display_writes (l : list io) : list string :=
  flat_map (fun e =>
    match e with
    | Write line => if startswith line "TM1637:NUM:" then [line] else []
    | Sleep _ => []
    end) l.

(** The event loop right after [main] connected. *)
Definition started : system := {| ctl := connected; tasks := [] |}.

(** Some wall-clock reading. *)
Definition noon : wallclock :=
  {| strftime_HM := "1200"; strftime_HMS := "12:00:00";
     strftime_date := "03/11/2026 Tue" |}.

(** What a countdown that is left alone does from [n] seconds on: the
    remaining time every second down to zero, then three beeps half a
    second apart. *)
Fixpoint countdown_log (n : nat) : list io :=
  match n with
  | O =>
      [Write "TM1637:NUM:0000";
       Write "BUZZER:BEEP:300"; Sleep 500;
       Write "BUZZER:BEEP:300"; Sleep 500;
       Write "BUZZER:BEEP:300"; Sleep 500]
  | S m =>
      Write ("TM1637:NUM:" ++ format_02d (Z.of_nat n / 60)
                           ++ format_02d (Z.of_nat n mod 60))
      :: Sleep 1000 :: countdown_log m
  end.

(** The lines of a log that were written to the port. *)
Definition written (l : list io) : list string :=
  flat_map (fun e => match e with Write line => [line] | Sleep _ => [] end) l.

(** The commands whose first word is [exit] or [quit]. *)
Definition is_exit (cmd : string) : bool :=
  match split_words (lower (strip cmd)) with
  | device :: _ => String.eqb device "exit" || String.eqb device "quit"
  | [] => false
  end.

Definition exits (st : step) : bool :=
  match st with Command cmd => is_exit cmd | Wake _ _ => false end.

End Control.

(* ===================================================================== *)
(** * Facts about the built-ins                                           *)
(* ===================================================================== *)

Section PyFacts.
Import Py.

Lemma Qlt_bool_iff (x y : Q) : Qlt_bool x y = true <-> (x < y)%Q.
Proof.
  unfold Qlt_bool. rewrite negb_true_iff, <- not_true_iff_false, Qle_bool_iff.
  split; [apply Qnot_le_lt | apply Qlt_not_le].
Qed.

(** [==] between thresholds does not change what lies below them. *)
Lemma float_lt_compat (x s t : pyfloat) :
  float_eq s t = true -> float_lt x t = true -> float_lt x s = true.
Proof.
  destruct s as [| ns | | p], t as [| nt | | q]; simpl;
    try discriminate; try (destruct x; discriminate).
  all: destruct x; simpl; try discriminate; auto.
  all: rewrite ?Qeq_bool_iff, ?Qlt_bool_iff.
  all: try (intros E; apply eqb_prop in E; subst; now auto).
  - intros E L. rewrite <- E in L. exfalso. exact (Qlt_irrefl _ L).
  - intros E L. now rewrite E.
  - intros E L. now rewrite E.
  - intros E L. now rewrite E.
  - intros E L. now rewrite E.
Qed.

(** A threshold something lies below is not not-a-number. *)
Lemma float_eq_refl_of_lt (x t : pyfloat) :
  float_lt x t = true -> float_eq t t = true.
Proof.
  destruct t as [| n | | q]; simpl.
  - destruct x; discriminate.
  - intros _. apply eqb_reflx.
  - reflexivity.
  - intros _. apply Qeq_bool_iff. reflexivity.
Qed.

(** [x >= t] excludes [x < t]. *)
Lemma float_ge_not_lt (x t : pyfloat) :
  float_ge x t = true -> float_lt x t = false.
Proof.
  unfold float_ge. intros H. apply not_true_iff_false. intros L.
  apply orb_true_iff in H.
  destruct x as [| nx | | p], t as [| nt | | q]; simpl in *;
    try discriminate; try (destruct H; discriminate);
    try (destruct nx; try destruct nt; simpl in *; destruct H; discriminate);
    try (destruct nt; simpl in *; destruct H; discriminate).
  all: rewrite ?Qeq_bool_iff, ?Qlt_bool_iff in *.
  all: destruct H as [H | H];
    [ exact (Qlt_irrefl _ (Qlt_trans _ _ _ L H))
    | first [ rewrite H in L | rewrite <- H in L ]; exact (Qlt_irrefl _ L) ].
Qed.

Lemma take_length (n : nat) (s : string) :
  (String.length (take n s) <= n)%nat.
Proof.
  unfold take. revert s. induction n as [| n IH]; intros [| c r]; simpl; try lia.
  specialize (IH r). lia.
Qed.




End PyFacts.

(* ===================================================================== *)
(** * The rule engine of the server                                       *)
(* ===================================================================== *)

Section RuleEngine.
Import Py Server.

(** ** Lists *)

Lemma filter_none {A} (f : A -> bool) (l : list A) :
  (forall a, In a l -> f a = false) -> filter f l = [].
Proof.
  induction l as [| a l IH]; simpl; intros H; [reflexivity |].
  rewrite (H a) by auto. apply IH. auto.
Qed.

Lemma filter_all {A} (f : A -> bool) (l : list A) :
  (forall a, In a l -> f a = true) -> filter f l = l.
Proof.
  induction l as [| a l IH]; simpl; intros H; [reflexivity |].
  rewrite (H a) by auto. f_equal. apply IH. auto.
Qed.

Lemma occurrences_app (a : action) (l m : list action) :
  occurrences a (l ++ m) = (occurrences a l + occurrences a m)%nat.
Proof. apply count_occ_app. Qed.

Lemma occurrences_filter (f : action -> bool) (a : action) (l : list action) :
  occurrences a (filter f l) = if f a then occurrences a l else 0%nat.
Proof.
  unfold occurrences. induction l as [| b l IH]; simpl.
  - destruct (f a); reflexivity.
  - destruct (f b) eqn:Fb; simpl; destruct (action_eq_dec b a) as [-> | N];
      rewrite IH; try rewrite Fb; reflexivity.
Qed.

Lemma occurrences_In (a : action) (l : list action) :
  In a l <-> (0 < occurrences a l)%nat.
Proof. unfold occurrences. rewrite (count_occ_In action_eq_dec). lia. Qed.

(** ** Equality of actions *)

Lemma params_eqb_refl (p : params) : params_eqb p p = true.
Proof.
  destruct p as [d m s i l1 l2 c]. unfold params_eqb. simpl.
  destruct d, m, s, i, l1, l2, c; simpl;
    rewrite ?Z.eqb_refl, ?String.eqb_refl; reflexivity.
Qed.

Lemma matches_refl (ev : event) (a : action) :
  matches ev a = true -> action_eqb a a = true.
Proof.
  unfold matches, action_eqb. intros H.
  rewrite String.eqb_refl, params_eqb_refl, !andb_true_r.
  destruct ev, (action_trigger a); simpl in *; try discriminate;
    try reflexivity.
  - apply String.eqb_refl.
  - eapply float_eq_refl_of_lt; eassumption.
Qed.

Lemma matches_eqb (ev : event) (a b : action) :
  action_eqb b a = true -> matches ev a = true -> matches ev b = true.
Proof.
  unfold matches, action_eqb. intros E.
  apply andb_true_iff in E. destruct E as [E _].
  apply andb_true_iff in E. destruct E as [E _].
  destruct ev, (action_trigger a), (action_trigger b); simpl in *;
    try discriminate; auto.
  - apply String.eqb_eq in E. now subst.
  - intros L. eapply float_lt_compat; eassumption.
Qed.

Lemma list_remove_first (a : action) (K S : list action) :
  (forall b, In b K -> action_eqb b a = false) ->
  action_eqb a a = true ->
  list_remove a (K ++ a :: S) = Some (K ++ S)%list.
Proof.
  intros HK Hr. induction K as [| b K IH]; simpl.
  - now rewrite Hr.
  - rewrite (HK b) by (simpl; auto). rewrite IH; [reflexivity |].
    intros c Hc. apply HK. simpl. auto.
Qed.

(** ** The link *)

Lemma send_command_open (cmd : string) (w : world) :
  connection_open w = true ->
  send_command cmd w = (Ok tt, set_sent (fun l => l ++ [cmd])%list w).
Proof.
  intros H. unfold send_command, bind, get_arduino, modify. now rewrite H.
Qed.

Lemma grows_refl (w : world) :
  connection_open w = true -> grows w w [] [].
Proof. intros H. split; auto using app_nil_r. Qed.

Lemma grows_trans (w1 w2 w3 : world) c1 c2 a1 a2 :
  grows w1 w2 c1 a1 -> grows w2 w3 c2 a2 ->
  grows w1 w3 (c1 ++ c2) (a1 ++ a2).
Proof.
  intros [S1 E1 O1 P1] [S2 E2 O2 P2]. split.
  - now rewrite S2, S1, app_assoc.
  - now rewrite E2, E1, app_assoc.
  - assumption.
  - congruence.
Qed.

(** ** Executing an action sends its commands and nothing else *)

Lemma execute_action_open (a : action) (w : world) :
  connection_open w = true ->
  exists w',
    execute_action a w = (Ok tt, w')
    /\ grows w w' (commands_of a) [a]
    /\ pending_actions w' = pending_actions w
    /\ arduino_state w' = arduino_state w.
Proof.
  intros H. unfold execute_action, commands_of, bind, modify, try_except.
  repeat match goal with
         | |- context [String.eqb ?x ?y] => destruct (String.eqb x y)
         end;
    unfold bind, ret;
    rewrite ?send_command_open by (simpl; assumption);
    rewrite ?send_command_open by (simpl; assumption);
    (eexists; split; [reflexivity |]);
    (split; [split |]); simpl; auto using app_nil_r.
  now rewrite <- app_assoc.
Qed.

(** ** The loops that fire rules *)

Lemma for_each_ext {A} (f g : A -> M unit) (l : list A) :
  (forall a, f a = g a) -> for_each l f = for_each l g.
Proof.
  intros E. induction l as [| a l IH]; simpl; [reflexivity |].
  now rewrite E, IH.
Qed.

Lemma bind_ok {A B} (c : M A) (k : A -> M B) (w w1 : world) (a : A) :
  c w = (Ok a, w1) -> bind c k w = k a w1.
Proof. intros E. unfold bind. now rewrite E. Qed.

Lemma bind_raise {A B} (c : M A) (k : A -> M B) (w w1 : world) (e : exn) :
  c w = (Raise e, w1) -> bind c k w = (Raise e, w1).
Proof. intros E. unfold bind. now rewrite E. Qed.

(** The loop over a snapshot of the pending rules: [K] is the part of the
    list already walked through and kept, [S] what is still to
    visit. *)
Lemma fire_loop (ev : event) (S K : list action) (w : world) :
  connection_open w = true ->
  pending_actions w = (K ++ S)%list ->
  (forall a, In a K -> matches ev a = false) ->
  exists w',
    for_each S (fire (matches ev)) w = (Ok tt, w')
    /\ pending_actions w' = (K ++ filter (fun a => negb (matches ev a)) S)%list
    /\ grows w w' (flat_map commands_of (filter (matches ev) S))
             (filter (matches ev) S)
    /\ arduino_state w' = arduino_state w.
Proof.
  revert K w. induction S as [| a S IH]; intros K w Ho Hp HK.
  - exists w. simpl. repeat split; auto using app_nil_r.
  - simpl. unfold bind, fire at 1. destruct (matches ev a) eqn:Ma; simpl.
    + destruct (execute_action_open a w Ho) as (w1 & E1 & G1 & P1 & T1).
      unfold bind at 1. rewrite E1.
      unfold remove_pending, bind, gets, lift_option.
      rewrite P1, Hp, list_remove_first.
      * unfold ret, modify.
        destruct (IH K (set_pending (fun _ => (K ++ S)%list) w1))
          as (w2 & E2 & P2 & G2 & T2); simpl; auto.
        { apply G1. }
        exists w2. rewrite E2. repeat split; auto.
        -- destruct G1 as [S1 X1 O1 Q1], G2 as [S2 X2 O2 Q2]. simpl in *.
           now rewrite S2, S1, app_assoc.
        -- destruct G1 as [S1 X1 O1 Q1], G2 as [S2 X2 O2 Q2]. simpl in *.
           now rewrite X2, X1, <- app_assoc.
        -- apply G2.
        -- destruct G1 as [S1 X1 O1 Q1], G2 as [S2 X2 O2 Q2]. simpl in *.
           congruence.
        -- simpl in T2. congruence.
      * intros b Hb. destruct (action_eqb b a) eqn:Eb; [| reflexivity].
        specialize (HK b Hb).
        pose proof (matches_eqb ev a b Eb Ma) as Mb. congruence.
      * eapply matches_refl; eassumption.
    + unfold ret.
      destruct (IH (K ++ [a])%list w) as (w2 & E2 & P2 & G2 & T2); auto.
      * now rewrite <- app_assoc.
      * intros b Hb. apply in_app_or in Hb. destruct Hb as [Hb | [<- | []]]; auto.
      * exists w2. rewrite E2. repeat split; auto; try apply G2.
        now rewrite P2, <- app_assoc.
Qed.

(** The loop that echoes a distance on the character display. *)
Lemma echo_loop (line : string) (S : list action) (w : world) :
  connection_open w = true ->
  exists w',
    for_each S (fun a =>
      match action_trigger a with
      | distance_update => send_command line
      | _ => ret tt
      end) w = (Ok tt, w')
    /\ pending_actions w' = pending_actions w
    /\ grows w w' (map (fun _ => line) (filter is_distance_update S)) []
    /\ arduino_state w' = arduino_state w.
Proof.
  revert w. induction S as [| a S IH]; intros w Ho.
  - exists w. simpl. repeat split; auto using app_nil_r.
  - simpl. unfold bind at 1, is_distance_update at 1.
    destruct (action_trigger a); unfold ret;
      try (destruct (IH w Ho) as (w' & E & P & G & T); exists w';
           repeat split; auto; apply G).
    rewrite send_command_open by assumption.
    destruct (IH (set_sent (fun l => (l ++ [line])%list) w) Ho)
      as (w' & E & P & G & T).
    exists w'. repeat split; auto; try apply G.
    destruct G as [S1 _ _ _]. simpl in *. now rewrite S1, <- app_assoc.
Qed.

(** ** One event

    What the monitor does with an event is what the contract of the rule
    engine says: the rules the event matches are executed in the order of
    the list and leave it, the others stay where they are. *)
Lemma on_event_spec (now : timestamp) (ev : event) (w : world) :
  connection_open w = true ->
  exists w',
    on_event now ev w = (Ok tt, w')
    /\ pending_actions w'
       = filter (fun a => negb (matches ev a)) (pending_actions w)
    /\ grows w w'
         (echo_of ev (pending_actions w)
          ++ flat_map commands_of (filter (matches ev) (pending_actions w)))
         (filter (matches ev) (pending_actions w))
    /\ arduino_state w' = apply_event now ev (arduino_state w).
Proof.
  intros Ho. destruct ev as [remaining | | time_str | cm |].
  - eexists. split; [reflexivity |]. simpl.
    rewrite filter_all by reflexivity. rewrite filter_none by reflexivity.
    repeat split; simpl; auto using app_nil_r.
  - set (w0 := set_state (fun t => apply_event now TimerFinished t) w).
    destruct (fire_loop TimerFinished (pending_actions w) [] w0)
      as (w' & E & P & G & T); try solve [simpl; auto | intros ? []].
    exists w'. split; [| repeat split; auto; apply G].
    simpl. unfold on_countdown_finished.
    erewrite bind_ok by reflexivity. erewrite bind_ok by reflexivity.
    erewrite for_each_ext; [exact E |].
    intros a. unfold fire, matches. now destruct (action_trigger a).
  - set (w0 := set_state (fun t => apply_event now (ClockReport time_str) t) w).
    destruct (fire_loop (ClockReport time_str) (pending_actions w) [] w0)
      as (w' & E & P & G & T); try solve [simpl; auto | intros ? []].
    exists w'. split; [| repeat split; auto; apply G].
    simpl. unfold on_clock.
    erewrite bind_ok by reflexivity. erewrite bind_ok by reflexivity.
    erewrite for_each_ext; [exact E |].
    intros a. unfold fire, matches. now destruct (action_trigger a).
  - set (w0 := set_state (fun t => apply_event now (DistanceReport cm) t) w).
    destruct (echo_loop ("LCD:LINE2:" ++ format_fixed 2 cm ++ " cm       ")
                (pending_actions w) w0 Ho)
      as (w1 & E1 & P1 & G1 & T1).
    destruct (fire_loop (DistanceReport cm) (pending_actions w1) [] w1)
      as (w' & E & P & G & T);
      try solve [simpl; auto | intros ? [] | apply G1].
    exists w'. simpl in P1, T1. split; [| rewrite P1 in *; repeat split].
    + simpl. unfold on_distance.
      erewrite bind_ok by reflexivity. erewrite bind_ok by reflexivity.
      erewrite bind_ok by exact E1. erewrite bind_ok by reflexivity.
      erewrite for_each_ext; [exact E |].
      intros a. unfold fire, matches. now destruct (action_trigger a).
    + assumption.
    + destruct G1 as [S1 _ _ _], G as [S2 _ _ _]. simpl in *.
      now rewrite S2, S1, app_assoc.
    + destruct G1 as [_ X1 _ _], G as [_ X2 _ _]. simpl in *.
      now rewrite X2, X1, app_nil_r.
    + apply G.
    + destruct G1 as [_ _ _ Q1], G as [_ _ _ Q2]. simpl in *. congruence.
    + rewrite T, T1. reflexivity.
  - exists w. split; [reflexivity |].
    rewrite filter_all by reflexivity. rewrite filter_none by reflexivity.
    repeat split; simpl; auto using app_nil_r.
Qed.

Lemma deliver_spec (d : delivery) (w : world) :
  connection_open w = true ->
  let w' := deliver w d in
  pending_actions w'
  = filter (fun a => negb (matches (snd d) a)) (pending_actions w)
  /\ grows w w'
       (echo_of (snd d) (pending_actions w)
        ++ flat_map commands_of
             (filter (matches (snd d)) (pending_actions w)))
       (filter (matches (snd d)) (pending_actions w))
  /\ arduino_state w' = apply_event (fst d) (snd d) (arduino_state w).
Proof.
  intros Ho. unfold deliver, exec.
  destruct (on_event_spec (fst d) (snd d) w Ho) as (w' & E & H).
  now rewrite E.
Qed.

(** ** Counting one rule through events *)

Section OneRule.

Variable r : action.

Lemma deliver_miss (d : delivery) (w : world) :
  connection_open w = true ->
  matches (snd d) r = false ->
  occurrences r (executed (deliver w d)) = occurrences r (executed w)
  /\ occurrences r (pending_actions (deliver w d))
     = occurrences r (pending_actions w).
Proof.
  intros Ho Hm. destruct (deliver_spec d w Ho) as (P & [_ X _ _] & _).
  rewrite P, X, occurrences_app, !occurrences_filter, Hm. simpl. lia.
Qed.

Lemma deliver_hit (d : delivery) (w : world) :
  connection_open w = true ->
  matches (snd d) r = true ->
  occurrences r (executed (deliver w d))
  = (occurrences r (executed w) + occurrences r (pending_actions w))%nat
  /\ occurrences r (pending_actions (deliver w d)) = 0%nat.
Proof.
  intros Ho Hm. destruct (deliver_spec d w Ho) as (P & [_ X _ _] & _).
  rewrite P, X, occurrences_app, !occurrences_filter, Hm. simpl. lia.
Qed.

Lemma deliver_open (d : delivery) (w : world) :
  connection_open w = true -> connection_open (deliver w d) = true.
Proof. intros Ho. now destruct (deliver_spec d w Ho) as (_ & [_ _ O _] & _). Qed.

Lemma run_events_open (ds : list delivery) (w : world) :
  connection_open w = true -> connection_open (run_events ds w) = true.
Proof.
  revert w. induction ds as [| d ds IH]; intros w Ho; simpl; auto.
  apply IH. now apply deliver_open.
Qed.

(** Events that do not match the rule leave it pending and unfired. *)
Lemma run_events_miss (ds : list delivery) (w : world) :
  connection_open w = true ->
  (forall d, In d ds -> matches (snd d) r = false) ->
  occurrences r (executed (run_events ds w)) = occurrences r (executed w)
  /\ occurrences r (pending_actions (run_events ds w))
     = occurrences r (pending_actions w).
Proof.
  revert w. induction ds as [| d ds IH]; intros w Ho Hm; simpl; auto.
  destruct (deliver_miss d w Ho) as [X P]; [apply Hm; simpl; auto |].
  destruct (IH (deliver w d)) as [X' P'];
    [now apply deliver_open | intros; apply Hm; simpl; auto |].
  split; congruence.
Qed.

(** A rule that is not pending stays so and is not fired. *)
Lemma run_events_absent (ds : list delivery) (w : world) :
  connection_open w = true ->
  occurrences r (pending_actions w) = 0%nat ->
  occurrences r (executed (run_events ds w)) = occurrences r (executed w)
  /\ occurrences r (pending_actions (run_events ds w)) = 0%nat.
Proof.
  revert w. induction ds as [| d ds IH]; intros w Ho Hz; simpl; auto.
  assert (occurrences r (executed (deliver w d)) = occurrences r (executed w)
          /\ occurrences r (pending_actions (deliver w d)) = 0%nat) as [X P].
  { destruct (matches (snd d) r) eqn:Hm.
    - destruct (deliver_hit d w Ho Hm). split; lia.
    - destruct (deliver_miss d w Ho Hm). split; lia. }
  destruct (IH (deliver w d)) as [X' P']; [now apply deliver_open | auto |].
  split; congruence.
Qed.

(** What was fired stays fired. *)
Lemma run_events_mono (ds : list delivery) (w : world) :
  connection_open w = true ->
  (occurrences r (executed w) <= occurrences r (executed (run_events ds w)))%nat.
Proof.
  revert w. induction ds as [| d ds IH]; intros w Ho; simpl; auto.
  specialize (IH (deliver w d) (deliver_open d w Ho)).
  destruct (deliver_spec d w Ho) as (_ & [_ X _ _] & _).
  rewrite X, occurrences_app in IH. lia.
Qed.

(** A pending rule is fired by the first event that matches it. *)
Lemma run_events_hit (ds : list delivery) (w : world) :
  connection_open w = true ->
  (0 < occurrences r (pending_actions w))%nat ->
  existsb (fun d => matches (snd d) r) ds = true ->
  (occurrences r (executed w) < occurrences r (executed (run_events ds w)))%nat.
Proof.
  revert w. induction ds as [| d ds IH]; intros w Ho Hp Hx; simpl in *;
    [discriminate |].
  destruct (matches (snd d) r) eqn:Hm.
  - destruct (deliver_hit d w Ho Hm) as [X _].
    pose proof (run_events_mono ds (deliver w d) (deliver_open d w Ho)). lia.
  - destruct (deliver_miss d w Ho Hm) as [X P].
    specialize (IH (deliver w d) (deliver_open d w Ho)).
    rewrite X, P in IH. auto.
Qed.

End OneRule.

End RuleEngine.

(* ===================================================================== *)
(** * Registration                                                        *)
(* ===================================================================== *)

Section Registration.
Import Py Server.

(** Parsing the parameters of an action does not touch the world. *)
Lemma parse_action_params_pure (then_action action_params err : string)
  (w : world) :
  snd (parse_action_params then_action action_params err w) = w.
Proof.
  unfold parse_action_params.
  repeat match goal with
         | |- context [String.eqb ?x ?y] => destruct (String.eqb x y)
         | |- context [truthy ?x] => destruct (truthy x)
         | |- context [contains ?c ?x] => destruct (contains c x)
         end;
    unfold bind, item, lift_option, ret, raise;
    repeat match goal with
           | |- context [nth_error ?l ?i] => destruct (nth_error l i)
           | |- context [int ?x] => destruct (int x)
           end;
    reflexivity.
Qed.

Lemma occurrences_one (r : action) : occurrences r [r] = 1%nat.
Proof.
  unfold occurrences. simpl. destruct (action_eq_dec r r); congruence.
Qed.

(** A registration that is confirmed has put one rule at the end of the
    list, with the trigger and the action kind that were asked for. *)
Lemma registered (t : trigger) (then_action action_params err : string)
  (w0 w : world) :
  (r <- parse_action_params then_action action_params err ;;
   match r with
   | inl msg => ret (ErrorText msg)
   | inr p => register t then_action p ;; ret Confirmed
   end) w0 = (Ok Confirmed, w) ->
  exists p,
    parse_action_params then_action action_params err w0 = (Ok (inr p), w0)
    /\ w = set_pending (fun l =>
             (l ++ [ {| action_trigger := t; action_type := then_action;
                        action_params := p |} ])%list) w0.
Proof.
  unfold bind at 1.
  pose proof (parse_action_params_pure then_action action_params err w0) as Hp.
  destruct (parse_action_params then_action action_params err w0)
    as [[[msg | p] | e] w1]; simpl in Hp; subst w1; intros H.
  - discriminate.
  - exists p. split; [reflexivity |]. unfold register, bind, modify, ret in H.
    now inversion H.
  - discriminate.
Qed.

End Registration.

(* ===================================================================== *)
(** * The claims about the rule engine                                    *)
(* ===================================================================== *)

Section EngineClaims.
Import Py Server.

(** C1.  A rule registered by [when_distance_less_than] with threshold
    [t] is not fired by any event before the first distance report below
    [t] — in particular not by a report [cm >= t], for which [cm < t] is
    false — and stays pending; the first report with [cm < t] fires every
    pending copy of it once and removes it from the pending list; no later
    event fires it again. *)
Theorem C1_distance_rule_fires_once
  (t : pyfloat) (then_action action_params : string) (w0 w : world)
  (before : list delivery) :
  connection_open w0 = true ->
  when_distance_less_than t then_action action_params w0 = (Ok Confirmed, w) ->
  (forall now cm, In (now, DistanceReport cm) before -> float_lt cm t = false) ->
  exists r,
    action_trigger r = distance_less_than t
    /\ action_type r = then_action
    /\ pending_actions w = (pending_actions w0 ++ [r])%list
    /\ let copies := S (occurrences r (pending_actions w0)) in
       let w1 := run_events before w in
       occurrences r (executed w1) = occurrences r (executed w0)
       /\ occurrences r (pending_actions w1) = copies
       /\ forall now cm after,
            float_lt cm t = true ->
            let w2 := deliver w1 (now, DistanceReport cm) in
            let w3 := run_events after w2 in
            occurrences r (executed w2)
            = (occurrences r (executed w0) + copies)%nat
            /\ occurrences r (pending_actions w2) = 0%nat
            /\ occurrences r (executed w3) = occurrences r (executed w2)
            /\ occurrences r (pending_actions w3) = 0%nat.
Proof.
  intros Ho Hreg Hbefore.
  apply registered in Hreg. destruct Hreg as (p & _ & ->).
  set (r := {| action_trigger := distance_less_than t;
               action_type := then_action; action_params := p |}).
  exists r. do 3 (split; [reflexivity |]). cbv zeta.
  set (w := set_pending _ w0).
  assert (Hw : connection_open w = true) by exact Ho.
  assert (Hmiss : forall d, In d before -> matches (snd d) r = false).
  { intros [now [| | | cm |]] Hd; simpl; try reflexivity. eauto. }
  destruct (run_events_miss r before w Hw Hmiss) as [X P].
  assert (Hp : occurrences r (pending_actions w)
               = S (occurrences r (pending_actions w0))).
  { unfold w. simpl. rewrite occurrences_app, occurrences_one. lia. }
  split; [exact X |]. split; [congruence |].
  intros now cm after Hlt.
  pose proof (run_events_open before w Hw) as Ho1.
  destruct (deliver_hit r (now, DistanceReport cm) (run_events before w) Ho1)
    as [X2 P2]; [exact Hlt |].
  destruct (run_events_absent r after
              (deliver (run_events before w) (now, DistanceReport cm)))
    as [X3 P3]; [now apply deliver_open | exact P2 |].
  repeat split; try assumption.
  rewrite X2, X, P, Hp. reflexivity.
Qed.

(** C2.  A rule registered by [when_time_equals] with target [target] is
    fired in the course of a sequence of events if and only if one of them
    is a clock report whose string is [target], character for
    character. *)
Theorem C2_clock_rule_exact_match
  (target then_action action_params : string) (w0 w : world)
  (ds : list delivery) :
  connection_open w0 = true ->
  when_time_equals target then_action action_params w0 = (Ok Confirmed, w) ->
  exists r,
    action_trigger r = time_equals target
    /\ action_type r = then_action
    /\ pending_actions w = (pending_actions w0 ++ [r])%list
    /\ ((occurrences r (executed w)
         < occurrences r (executed (run_events ds w)))%nat
        <-> exists now, In (now, ClockReport target) ds).
Proof.
  intros Ho Hreg. unfold when_time_equals in Hreg.
  destruct (negb (is_hhmmss target)); [discriminate |].
  apply registered in Hreg. destruct Hreg as (p & _ & ->).
  set (r := {| action_trigger := time_equals target;
               action_type := then_action; action_params := p |}).
  exists r. do 3 (split; [reflexivity |]). split.
  - intros Hfired.
    destruct (existsb (fun d => matches (snd d) r) ds) eqn:Hx.
    + apply existsb_exists in Hx. destruct Hx as ([now ev] & Hin & Hm).
      exists now. destruct ev; simpl in Hm; try discriminate.
      apply String.eqb_eq in Hm. now subst.
    + exfalso.
      destruct (run_events_miss r ds (set_pending
                  (fun l => (l ++ [r])%list) w0)) as [X _]; [exact Ho | | ].
      * intros d Hd. destruct (matches (snd d) r) eqn:Hm; [| reflexivity].
        assert (existsb (fun d => matches (snd d) r) ds = true)
          by (apply existsb_exists; eauto).
        congruence.
      * fold r in Hfired. lia.
  - intros [now Hin].
    apply run_events_hit.
    + exact Ho.
    + simpl. rewrite occurrences_app, occurrences_one. lia.
    + apply existsb_exists. exists (now, ClockReport target).
      split; [exact Hin |]. simpl. apply String.eqb_refl.
Qed.

(** An event finds nothing to do when no rule is pending: it sends
    nothing, executes nothing and queues nothing, whatever the state of
    the connection. *)
Lemma on_event_nothing_pending (now : timestamp) (ev : event) (w : world) :
  pending_actions w = [] ->
  let w' := exec (on_event now ev) w in
  pending_actions w' = [] /\ sent w' = sent w /\ executed w' = executed w.
Proof.
  intros Hp. destruct ev; unfold exec; simpl;
    unfold on_timer_remaining, on_countdown_finished, on_clock, on_distance,
      bind, touch, modify, gets; simpl; rewrite ?Hp; simpl;
    rewrite ?Hp; simpl; auto.
Qed.

(** C7.  [clear_all_pending_actions] empties the pending list and reports
    how many rules it held; whatever events follow, nothing is sent,
    nothing is executed and nothing becomes pending. *)
Theorem C7_clear_all_removes_every_rule (w : world) (ds : list delivery) :
  let w' := exec clear_all_pending_actions w in
  fst (clear_all_pending_actions w)
  = Ok (Cleared (Z.of_nat (List.length (pending_actions w))))
  /\ pending_actions w' = []
  /\ sent w' = sent w
  /\ executed w' = executed w
  /\ pending_actions (run_events ds w') = []
  /\ sent (run_events ds w') = sent w
  /\ executed (run_events ds w') = executed w.
Proof.
  simpl. repeat split.
  all: set (w' := exec clear_all_pending_actions w).
  all: assert (H : pending_actions w' = [] /\ sent w' = sent w
                   /\ executed w' = executed w) by (repeat split).
  all: clearbody w'; revert w' H;
    induction ds as [| [now ev] ds IH]; intros w' (Hp & Hs & Hx); simpl; auto.
  all: apply IH; unfold deliver; simpl;
    destruct (on_event_nothing_pending now ev w' Hp) as (P & S & X);
    repeat split; congruence.
Qed.

Section Countdown.

Variable py_float : string -> option pyfloat.

(** C3.  With a connection that is open or can be opened and no
    timer-zero rule pending, registering
    [when_timer_finishes("buzzer_beep", "500")] and then letting the
    monitor read the line [COUNTDOWN:FINISHED] sends the one command
    [BUZZER:BEEP:500], executes the one rule, and leaves no timer-zero
    rule pending. *)
Theorem C3_timer_rule_beeps_once (now : timestamp) (w0 : world) :
  reachable w0 = true ->
  (forall a, In a (pending_actions w0) -> is_timer_zero a = false) ->
  let w1 := exec (when_timer_finishes "buzzer_beep" "500") w0 in
  let w2 := exec (monitor_arduino_status py_float now
                    (Some "COUNTDOWN:FINISHED")) w1 in
  fst (when_timer_finishes "buzzer_beep" "500" w0) = Ok Confirmed
  /\ sent w2 = (sent w0 ++ ["BUZZER:BEEP:500"])%list
  /\ executed w2 = (executed w0 ++ [beep_500])%list
  /\ filter is_timer_zero (pending_actions w2) = []
  /\ pending_actions w2 = pending_actions w0.
Proof.
  intros Hr Hnone. split; [reflexivity |].
  set (w1 := exec (when_timer_finishes "buzzer_beep" "500") w0).
  assert (E1 : w1 = set_pending (fun l => (l ++ [beep_500])%list) w0)
    by reflexivity.
  clearbody w1. subst w1. cbv zeta.
  unfold monitor_arduino_status, exec, try_except.
  assert (Hg : exists w',
             get_arduino (set_pending (fun l => (l ++ [beep_500])%list) w0)
             = (Ok tt, w')
             /\ connection_open w' = true
             /\ pending_actions w' = (pending_actions w0 ++ [beep_500])%list
             /\ sent w' = sent w0 /\ executed w' = executed w0).
  { unfold get_arduino, reachable in *. simpl.
    destruct (connection_open w0) eqn:Ho.
    - eexists. split; [reflexivity |]. simpl. auto.
    - simpl in Hr. rewrite Hr. eexists. split; [reflexivity |]. simpl. auto. }
  destruct Hg as (w' & Eg & Ho & Hp & Hs & Hx).
  erewrite bind_ok by exact Eg.
  erewrite bind_ok by reflexivity.
  destruct (on_event_spec now TimerFinished w' Ho) as (w2 & E2 & P2 & G2 & _).
  rewrite E2. simpl.
  assert (Hf : filter (matches TimerFinished) (pending_actions w')
               = [beep_500]).
  { rewrite Hp, filter_app, filter_none; [reflexivity |].
    intros a Ha. specialize (Hnone a Ha). unfold is_timer_zero in Hnone.
    unfold matches. now destruct (action_trigger a). }
  assert (Hk : filter (fun a => negb (matches TimerFinished a))
                 (pending_actions w') = pending_actions w0).
  { rewrite Hp, filter_app, filter_all; [simpl; apply app_nil_r |].
    intros a Ha. specialize (Hnone a Ha). unfold is_timer_zero in Hnone.
    unfold matches. now destruct (action_trigger a). }
  destruct G2 as [S2 X2 _ _]. rewrite Hf in *. simpl in S2.
  repeat split.
  - now rewrite S2, Hs.
  - now rewrite X2, Hx.
  - rewrite P2, Hk. apply filter_none. exact Hnone.
  - now rewrite P2, Hk.
Qed.

End Countdown.

End EngineClaims.

(* ===================================================================== *)
(** * The claims about the tools                                          *)
(* ===================================================================== *)

Section ToolClaims.
Import Py Server.

(** ** Sending over a connection that is open or can be opened *)





(** ** Telemetry is written by the monitor only *)

Lemma keeps_ret {A} (a : A) : keeps_telemetry (ret a).
Proof. intros w. reflexivity. Qed.

Lemma keeps_raise {A} (e : exn) : keeps_telemetry (@raise A e).
Proof. intros w. reflexivity. Qed.

Lemma keeps_bind {A B} (c : M A) (k : A -> M B) :
  keeps_telemetry c -> (forall a, keeps_telemetry (k a)) ->
  keeps_telemetry (bind c k).
Proof.
  intros Hc Hk w. unfold bind. specialize (Hc w).
  destruct (c w) as [[a | e] w1]; simpl in *; [| exact Hc].
  rewrite Hk. exact Hc.
Qed.

Lemma keeps_try {A} (c : M A) (h : exn -> M A) :
  keeps_telemetry c -> (forall e, keeps_telemetry (h e)) ->
  keeps_telemetry (try_except c h).
Proof.
  intros Hc Hh w. unfold try_except. specialize (Hc w).
  destruct (c w) as [[a | e] w1]; simpl in *; [exact Hc |].
  rewrite Hh. exact Hc.
Qed.

Lemma keeps_gets {A} (f : world -> A) : keeps_telemetry (gets f).
Proof. intros w. reflexivity. Qed.

Lemma keeps_lift_option {A} (e : exn) (o : option A) :
  keeps_telemetry (lift_option e o).
Proof. intros w. now destruct o. Qed.

Lemma keeps_get_arduino : keeps_telemetry get_arduino.
Proof.
  intros w. unfold get_arduino.
  destruct (connection_open w); [reflexivity |].
  destruct (port_available w); reflexivity.
Qed.

Lemma keeps_set_pending (f : list action -> list action) :
  keeps_telemetry (modify (set_pending f)).
Proof. intros w. reflexivity. Qed.

Lemma keeps_set_sent (f : list string -> list string) :
  keeps_telemetry (modify (set_sent f)).
Proof. intros w. reflexivity. Qed.

Lemma keeps_set_executed (f : list action -> list action) :
  keeps_telemetry (modify (set_executed f)).
Proof. intros w. reflexivity. Qed.

Lemma keeps_for_each {A} (l : list A) (body : A -> M unit) :
  (forall a, keeps_telemetry (body a)) -> keeps_telemetry (for_each l body).
Proof.
  intros Hb. induction l as [| a l IH]; simpl.
  - apply keeps_ret.
  - apply keeps_bind; auto.
Qed.

Lemma keeps_send_command (cmd : string) : keeps_telemetry (send_command cmd).
Proof.
  unfold send_command. apply keeps_bind.
  - apply keeps_get_arduino.
  - intros _. apply keeps_set_sent.
Qed.

Create HintDb frame.
#[local] Hint Resolve keeps_ret keeps_raise keeps_gets keeps_lift_option
  keeps_get_arduino keeps_set_pending keeps_set_sent keeps_set_executed
  keeps_send_command : frame.

Ltac frame :=
  repeat first
    [ progress intros
    | apply keeps_bind
    | apply keeps_try
    | apply keeps_for_each
    | solve [auto with frame]
    | match goal with
      | |- keeps_telemetry (if ?b then _ else _) => destruct b
      | |- keeps_telemetry (match ?x with _ => _ end) => destruct x
      end ].

Lemma keeps_parse_action_params (a p err : string) :
  keeps_telemetry (parse_action_params a p err).
Proof. unfold parse_action_params, item. frame. Qed.

Lemma keeps_register (t : trigger) (a : string) (p : params) :
  keeps_telemetry (register t a p).
Proof. unfold register. frame. Qed.

Lemma keeps_execute_action (a : action) : keeps_telemetry (execute_action a).
Proof. unfold execute_action. frame. Qed.

Section AnyFloatParser.

Variable py_float : string -> option pyfloat.

Lemma keeps_call (tc : tool_call) : keeps_telemetry (call py_float tc).
Proof.
  pose proof keeps_parse_action_params. pose proof keeps_register.
  destruct tc; simpl;
    unfold led_on, led_off, led_blink, led_toggle, buzzer_on, buzzer_off,
      buzzer_beep, lcd_write_line1, lcd_write_line2, lcd_clear,
      lcd_backlight_on, lcd_backlight_off, lcd_display_message,
      lcd_show_current_time, lcd_start_stopwatch, lcd_stop_stopwatch,
      display_number, display_time, display_current_time,
      display_start_stopwatch, display_stop_stopwatch, display_clear,
      display_brightness, display_timer, ultrasonic_start, ultrasonic_stop,
      ultrasonic_read, explain_display_capabilities, get_system_status,
      test_connection, all_off, welcome_message, proximity_alert,
      countdown_display, display_info, celebration, when_timer_finishes,
      when_time_equals, when_distance_less_than, show_live_ultrasonic_on_lcd,
      get_current_status, clear_all_pending_actions;
    frame.
Qed.

(** [classify] reads the line and nothing else. *)
Lemma classify_pure (line : string) (w : world) :
  snd (classify py_float line w) = w.
Proof.
  unfold classify, item, bind, lift_option, ret, raise.
  repeat match goal with
         | |- context [startswith ?x ?y] => destruct (startswith x y)
         end;
    repeat match goal with
           | |- context [nth_error ?l ?i] => destruct (nth_error l i)
           | |- context [int ?x] => destruct (int x)
           | |- context [py_float ?x] => destruct (py_float x)
           end;
    reflexivity.
Qed.

Lemma classify_same (line : string) (w w' : world) :
  fst (classify py_float line w) = fst (classify py_float line w').
Proof.
  unfold classify, item, bind, lift_option, ret, raise.
  repeat match goal with
         | |- context [startswith ?x ?y] => destruct (startswith x y)
         end;
    repeat match goal with
           | |- context [nth_error ?l ?i] => destruct (nth_error l i)
           | |- context [int ?x] => destruct (int x)
           | |- context [py_float ?x] => destruct (py_float x)
           end;
    reflexivity.
Qed.

(** C9.  No tool writes [arduino_state]: whatever tool is called with
    whatever arguments, the telemetry afterwards is the telemetry before.
    The monitor writes it only for a line it has received: with nothing
    waiting the telemetry stays, and with a line it either stays or becomes
    what the event the line was classified as says. *)
Theorem C9_telemetry_written_by_monitor_only :
  (forall (tc : tool_call) (w : world),
     arduino_state (exec (call py_float tc) w) = arduino_state w)
  /\ (forall (now : timestamp) (w : world),
        arduino_state (exec (monitor_arduino_status py_float now None) w)
        = arduino_state w)
  /\ (forall (now : timestamp) (raw : string) (w : world),
        let w' := exec (monitor_arduino_status py_float now (Some raw)) w in
        arduino_state w' = arduino_state w
        \/ exists ev,
             fst (classify py_float (strip raw) w) = Ok ev
             /\ arduino_state w' = apply_event now ev (arduino_state w)).
Proof.
  split; [| split].
  - intros tc w. apply keeps_call.
  - intros now w. unfold exec.
    assert (K : keeps_telemetry (monitor_arduino_status py_float now None))
      by (unfold monitor_arduino_status; frame).
    apply K.
  - intros now raw w. unfold exec, monitor_arduino_status, try_except.
    pose proof (keeps_get_arduino w) as Kg.
    destruct (get_arduino w) as [[[] | e] w0] eqn:Eg; simpl in Kg.
    2: { erewrite bind_raise by exact Eg. left. exact Kg. }
    erewrite bind_ok by exact Eg.
    assert (Ho : connection_open w0 = true).
    { unfold get_arduino in Eg. destruct (connection_open w) eqn:Ho.
      - inversion Eg. now subst.
      - destruct (port_available w); inversion Eg. reflexivity. }
    pose proof (classify_pure (strip raw) w0) as Hc0.
    pose proof (classify_same (strip raw) w0 w) as Hsame.
    destruct (classify py_float (strip raw) w0) as [[ev | e] w1] eqn:Ec;
      simpl in Hc0, Hsame; subst w1.
    2: { erewrite bind_raise by exact Ec. left. exact Kg. }
    erewrite bind_ok by exact Ec.
    right. exists ev. split; [now rewrite <- Hsame |].
    destruct (on_event_spec now ev w0 Ho) as (w2 & E2 & _ & _ & T2).
    rewrite E2. simpl. now rewrite T2, Kg.
Qed.

End AnyFloatParser.

End ToolClaims.

(* ===================================================================== *)
(** * What a registration can come to                                     *)
(* ===================================================================== *)

Section RegistrationClaims.
Import Py Server.

Lemma split_nonempty (sep : ascii) (s : string) :
  exists h t, split sep s = h :: t.
Proof.
  induction s as [| c r IH]; simpl; eauto.
  destruct (Ascii.eqb c sep); eauto.
  destruct IH as (h & t & ->). eauto.
Qed.






Section AnyFloatParser.

Variable py_float : string -> option pyfloat.


End AnyFloatParser.

End RegistrationClaims.

(* ===================================================================== *)
(** * The display routines of the console                                 *)
(* ===================================================================== *)

Section Routines.
Import Py Control.

Lemma run_alone_finished (fuel : nat) (now : wallclock) (c : controller) :
  run_alone fuel now Finished c = (c, Finished).
Proof. destruct fuel; reflexivity. Qed.

Lemma send_command_connected (cmd : string) (c : controller) :
  arduino c = Some true ->
  send_command cmd c = with_log (fun l => (l ++ [Write cmd])%list) c.
Proof. unfold send_command. now intros ->. Qed.

Ltac connected Ha :=
  repeat match goal with
         | |- context [send_command ?cmd ?c] =>
             rewrite (send_command_connected cmd c) by (simpl; exact Ha)
         end.

(** The three beeps that are left after the first one. *)
Lemma beeps_run (fuel : nat) (now : wallclock) (c : controller) :
  arduino c = Some true ->
  exists c',
    run_alone (3 + fuel) now (Countdown_beeping 2) c = (c', Finished)
    /\ log c' = (log c ++ [Write "BUZZER:BEEP:300"; Sleep 500;
                           Write "BUZZER:BEEP:300"; Sleep 500])%list
    /\ timer_active c' = false
    /\ running c' = running c /\ arduino c' = arduino c.
Proof.
  intros Ha. cbn [run_alone resume Nat.add]. unfold buzzer_beep.
  connected Ha. rewrite run_alone_finished. eexists. split; [reflexivity |].
  simpl. rewrite <- !app_assoc. auto.
Qed.

(** A countdown that is left alone, from [n] seconds on: it writes the
    remaining time down to zero, beeps three times and ends by itself. *)
Lemma countdown_runs (n fuel : nat) (now : wallclock) (c : controller) :
  arduino c = Some true -> running c = true -> timer_active c = true ->
  exists c',
    run_alone (n + 4 + fuel) now (Countdown_sleeping (Z.of_nat n)) c
    = (c', Finished)
    /\ log c' = (log c ++ countdown_log n)%list
    /\ timer_active c' = false
    /\ running c' = true /\ arduino c' = Some true.
Proof.
  revert c. induction n as [| n IH]; intros c Ha Hr Ht.
  - change (0 + 4 + fuel)%nat with (S (3 + fuel)).
    cbn [run_alone resume Z.of_nat]. unfold countdown_loop.
    rewrite Ht, Hr. cbn [Z.leb Z.compare andb Z.eqb].
    unfold buzzer_beep. connected Ha.
    match goal with |- context [run_alone _ _ _ ?c1] =>
      destruct (beeps_run fuel now c1) as (c' & E & L & T & R & A);
        [simpl; assumption |]
    end.
    exists c'. split; [exact E |]. rewrite L, T, R, A. simpl.
    rewrite <- !app_assoc. simpl. auto.
  - change (S n + 4 + fuel)%nat with (S (n + 4 + fuel)).
    cbn [run_alone resume]. unfold countdown_loop.
    rewrite Ht, Hr.
    replace (0 <=? Z.of_nat (S n)) with true by (symmetry; apply Z.leb_le; lia).
    replace (Z.of_nat (S n) =? 0) with false by (symmetry; apply Z.eqb_neq; lia).
    replace (Z.of_nat (S n) - 1) with (Z.of_nat n) by lia.
    cbn [andb]. connected Ha.
    match goal with |- context [run_alone _ _ _ ?c1] =>
      destruct (IH c1) as (c' & E & L & T & R & A); try (simpl; assumption)
    end.
    exists c'. split; [exact E |]. rewrite L. simpl.
    rewrite <- !app_assoc. simpl. auto.
Qed.

(** C8, as amended.  A countdown started with [(0, 3)] on a controller
    that is connected and running, and left alone, writes four remaining
    times to the numeric display, 0003, 0002, 0001 and 0000, a second
    apart; then it beeps three times, half a second apart, and ends by
    itself, with [timer_active] false.  More fuel than the seven runs it
    takes changes nothing. *)
Theorem C8_countdown_of_three_seconds
  (fuel : nat) (now : wallclock) (c : controller) :
  arduino c = Some true -> running c = true ->
  exists c',
    run_alone (7 + fuel) now (Countdown_created 0 3) c = (c', Finished)
    /\ log c'
       = (log c ++
          [Write "TM1637:NUM:0003"; Sleep 1000;
           Write "TM1637:NUM:0002"; Sleep 1000;
           Write "TM1637:NUM:0001"; Sleep 1000;
           Write "TM1637:NUM:0000";
           Write "BUZZER:BEEP:300"; Sleep 500;
           Write "BUZZER:BEEP:300"; Sleep 500;
           Write "BUZZER:BEEP:300"; Sleep 500])%list
    /\ display_writes (skipn (List.length (log c)) (log c'))
       = ["TM1637:NUM:0003"; "TM1637:NUM:0002";
          "TM1637:NUM:0001"; "TM1637:NUM:0000"]
    /\ timer_active c' = false.
Proof.
  intros Ha Hr.
  destruct (countdown_runs 3 fuel now (with_timer_active true c))
    as (c' & E & L & T & _); try solve [simpl; auto].
  exists c'. split; [exact E |]. simpl in L.
  split; [exact L |]. split; [| exact T].
  rewrite L, skipn_app, Nat.sub_diag, skipn_all. reflexivity.
Qed.

(** C4, on the code.  Two [display timer:0:5] commands, the second typed
    while the first countdown sleeps: the first countdown is not stopped.
    Both coroutines are alive and about to write, and the log shows the
    old one writing 0004 after the new one has written its first 0005. *)
Theorem C4_second_countdown_joins_the_first :
  let s := run [Command "display timer:0:5"; Wake 0 noon;
                Command "display timer:0:5"; Wake 1 noon;
                Wake 0 noon; Wake 1 noon] started in
  tasks s = [Countdown_sleeping 3; Countdown_sleeping 3]
  /\ running_on_numeric s = [Countdown_sleeping 3; Countdown_sleeping 3]
  /\ log (ctl s)
     = [Write "TM1637:NUM:0005"; Sleep 1000;
        Write "TM1637:NUM:0005"; Sleep 1000;
        Write "TM1637:NUM:0004"; Sleep 1000;
        Write "TM1637:NUM:0004"; Sleep 1000].
Proof. vm_compute. repeat split. Qed.

End Routines.

(* ===================================================================== *)
(** * The claims at concrete inputs                                       *)
(* ===================================================================== *)

Section Instances.
Import Py Server.

(** A beep rule for ten centimetres, on a fresh server: a report of fifty
    and a clock report leave it pending, a report of five fires it once,
    a second report of five does nothing. *)
Lemma C1_distance_rule_at_ten_cm :
  exists r,
    action_trigger r = distance_less_than (FFin 10)
    /\ action_type r = "buzzer_beep"
    /\ pending_actions
         (exec (when_distance_less_than (FFin 10) "buzzer_beep" "500") ready)
       = (pending_actions ready ++ [r])%list
    /\ let copies := S (occurrences r (pending_actions ready)) in
       let w1 :=
         run_events [(0%Q, DistanceReport (FFin 50));
                     (1%Q, ClockReport "07:15:00")]
           (exec (when_distance_less_than (FFin 10) "buzzer_beep" "500")
                 ready) in
       occurrences r (executed w1) = occurrences r (executed ready)
       /\ occurrences r (pending_actions w1) = copies
       /\ forall now cm after,
            float_lt cm (FFin 10) = true ->
            let w2 := deliver w1 (now, DistanceReport cm) in
            let w3 := run_events after w2 in
            occurrences r (executed w2)
            = (occurrences r (executed ready) + copies)%nat
            /\ occurrences r (pending_actions w2) = 0%nat
            /\ occurrences r (executed w3) = occurrences r (executed w2)
            /\ occurrences r (pending_actions w3) = 0%nat.
Proof.
  apply (C1_distance_rule_fires_once (FFin 10) "buzzer_beep" "500" ready).
  - reflexivity.
  - reflexivity.
  - intros now cm [H | [H | []]]; inversion H. reflexivity.
Defined.

(** A beep rule for a quarter past seven, on a fresh server. *)
Lemma C2_clock_rule_at_quarter_past_seven :
  exists r,
    action_trigger r = time_equals "07:15:00"
    /\ action_type r = "buzzer_beep"
    /\ pending_actions
         (exec (when_time_equals "07:15:00" "buzzer_beep" "2000") ready)
       = (pending_actions ready ++ [r])%list
    /\ ((occurrences r
           (executed
              (exec (when_time_equals "07:15:00" "buzzer_beep" "2000") ready))
         < occurrences r
             (executed
                (run_events [(0%Q, ClockReport "07:14:59");
                             (1%Q, ClockReport "07:15:00")]
                   (exec (when_time_equals "07:15:00" "buzzer_beep" "2000")
                         ready))))%nat
        <-> exists now,
              In (now, ClockReport "07:15:00")
                 [(0%Q, ClockReport "07:14:59");
                  (1%Q, ClockReport "07:15:00")]).
Proof.
  apply (C2_clock_rule_exact_match "07:15:00" "buzzer_beep" "2000" ready).
  - reflexivity.
  - reflexivity.
Defined.

(** The beep rule on a server that has not opened its connection yet. *)
Lemma C3_timer_rule_on_a_fresh_server :
  let w0 := initial_world 0%Q true in
  let w1 := exec (when_timer_finishes "buzzer_beep" "500") w0 in
  let w2 := exec (monitor_arduino_status (fun _ => None) 1%Q
                    (Some "COUNTDOWN:FINISHED")) w1 in
  fst (when_timer_finishes "buzzer_beep" "500" w0) = Ok Confirmed
  /\ sent w2 = (sent w0 ++ ["BUZZER:BEEP:500"])%list
  /\ executed w2 = (executed w0 ++ [beep_500])%list
  /\ filter is_timer_zero (pending_actions w2) = []
  /\ pending_actions w2 = pending_actions w0.
Proof.
  apply (C3_timer_rule_beeps_once (fun _ => None) 1%Q (initial_world 0%Q true)).
  - reflexivity.
  - intros a [].
Defined.




End Instances.

Section RoutineInstances.
Import Py Control.

(** C8, as stated, fails: the countdown of three seconds writes four
    values, not three; the last one is 0000. *)
Lemma C8_countdown_writes_four_values :
  let c := fst (run_alone 7 noon (Countdown_created 0 3) connected) in
  display_writes (log c)
  = ["TM1637:NUM:0003"; "TM1637:NUM:0002"; "TM1637:NUM:0001";
     "TM1637:NUM:0000"]
  /\ List.length (display_writes (log c)) <> 3%nat.
Proof. split; [reflexivity | discriminate]. Qed.

(** The countdown of three seconds on the console right after it
    connected. *)
Lemma C8_countdown_after_connecting :
  exists c',
    run_alone (7 + 0) noon (Countdown_created 0 3) connected = (c', Finished)
    /\ log c'
       = (log connected ++
          [Write "TM1637:NUM:0003"; Sleep 1000;
           Write "TM1637:NUM:0002"; Sleep 1000;
           Write "TM1637:NUM:0001"; Sleep 1000;
           Write "TM1637:NUM:0000";
           Write "BUZZER:BEEP:300"; Sleep 500;
           Write "BUZZER:BEEP:300"; Sleep 500;
           Write "BUZZER:BEEP:300"; Sleep 500])%list
    /\ display_writes (skipn (List.length (log connected)) (log c'))
       = ["TM1637:NUM:0003"; "TM1637:NUM:0002";
          "TM1637:NUM:0001"; "TM1637:NUM:0000"]
    /\ timer_active c' = false.
Proof.
  apply (C8_countdown_of_three_seconds 0 noon connected); reflexivity.
Defined.

End RoutineInstances.

(* ===================================================================== *)
(** * From lines to events, and further checks of the model              *)
(* ===================================================================== *)

Section Lines.
Import Py Server.

Variable py_float : string -> option pyfloat.

Lemma split_max_zero (sep : ascii) (s : string) : split_max sep s 0 = [s].
Proof. now destruct s. Qed.

Lemma startswith_nothing (s : string) : startswith s "" = true.
Proof. now destruct s. Qed.

(** A line that starts with [CLOCK:LCD:] is a clock report of all that
    follows, colons included. *)
Lemma classify_clock (rest : string) (w : world) :
  classify py_float ("CLOCK:LCD:" ++ rest) w = (Ok (ClockReport rest), w).
Proof.
  unfold classify. simpl. now rewrite split_max_zero, startswith_nothing.
Qed.

(** A line that starts with [COUNTDOWN:FINISHED] is the end of the
    timer, whatever follows. *)
Lemma classify_finished (rest : string) (w : world) :
  classify py_float ("COUNTDOWN:FINISHED" ++ rest) w = (Ok TimerFinished, w).
Proof. unfold classify. simpl. now rewrite startswith_nothing. Qed.

(** A line [DISTANCE:] is a distance report when what stands between the
    first colon and the next one is a float, and is dropped with
    [ValueError] otherwise. *)
Lemma classify_distance (rest : string) (w : world) :
  classify py_float ("DISTANCE:" ++ rest) w
  = match py_float (hd "" (split ":" rest)) with
    | Some d => (Ok (DistanceReport d), w)
    | None => (Raise ValueError, w)
    end.
Proof.
  unfold classify. simpl. rewrite startswith_nothing.
  destruct (split_nonempty ":" rest) as (h & t & ->). simpl.
  unfold bind, item, lift_option. simpl. now destruct (py_float h).
Qed.

(** A line the monitor cannot parse changes nothing at all. *)
Lemma monitor_drops_bad_number (now : timestamp) (w : world) :
  connection_open w = true ->
  exec (monitor_arduino_status py_float now (Some "TIMER:REMAINING:soon")) w
  = w.
Proof.
  intros Ho. unfold exec, monitor_arduino_status, try_except, bind,
    get_arduino. rewrite Ho. reflexivity.
Qed.

(** Rules that all match one event fire on it in the order of the list,
    each once, and none stays. *)
Lemma matching_rules_fire_in_order (d : delivery) (w : world) :
  connection_open w = true ->
  (forall a, In a (pending_actions w) -> matches (snd d) a = true) ->
  executed (deliver w d) = (executed w ++ pending_actions w)%list
  /\ pending_actions (deliver w d) = [].
Proof.
  intros Ho Hall. destruct (deliver_spec d w Ho) as (P & [_ X _ _] & _).
  rewrite X, P. rewrite filter_all by exact Hall.
  rewrite filter_none; [auto |].
  intros a Ha. now rewrite (Hall a Ha).
Qed.

End Lines.

Section Examples.
Import Py.

Example int_forms :
  int "500" = Some 500 /\ int " -1_000 " = Some (-1000) /\ int "1__0" = None
  /\ int "" = None /\ int "+07" = Some 7 /\ int "- 7" = None
  /\ int "02" = Some 2.
Proof. repeat split. Qed.

Example split_forms :
  split ":" "DISTANCE:12.5" = ["DISTANCE"; "12.5"]
  /\ split ":" "" = [""]
  /\ split_max ":" "CLOCK:LCD:07:15:00" 2 = ["CLOCK"; "LCD"; "07:15:00"]
  /\ strip "  COUNTDOWN:FINISHED
" = "COUNTDOWN:FINISHED".
Proof. repeat split. Qed.

Example format_forms :
  format_fixed 2 (FFin (25 # 2)) = "12.50"
  /\ format_fixed 2 (FFin (1 # 8)) = "0.12"
  /\ format_fixed 2 (FFin (3 # 8)) = "0.38"
  /\ format_fixed 1 (FFin (- (1 # 1000))) = "-0.0"
  /\ format_fixed 2 FNaN = "nan"
  /\ format_02d 3 = "03" /\ format_02d 12 = "12" /\ format_02d (-1) = "-1"
  /\ str_int 0 = "0" /\ str_int (-15) = "-15".
Proof. repeat split. Qed.

Example float_forms :
  float_lt (FFin 5) (FFin 10) = true
  /\ float_lt (FFin 10) (FFin 10) = false
  /\ float_lt FNaN (FFin 10) = false
  /\ float_lt (FFin 5) FNaN = false
  /\ float_eq (FFin (1 # 2)) (FFin (2 # 4)) = true
  /\ float_eq FNegZero (FFin 0) = true.
Proof. repeat split. Qed.

End Examples.

Section ConsoleExamples.
Import Py Control.

Example words_of_a_command :
  split_words (lower (strip "  Display  TIMER:0:5 ")) = ["display"; "timer:0:5"]
  /\ after_first "1:" "lcd 1:hello world" = Some "hello world".
Proof. repeat split. Qed.

(** A clock replaced by a countdown: the command clears [clock_active],
    and the clock coroutine ends at its next run without another write. *)
Example clock_gives_way_to_countdown :
  let s := run [Command "display clock"; Wake 0 noon;
                Command "display timer:0:5"; Wake 1 noon; Wake 0 noon] started in
  tasks s = [Finished; Countdown_sleeping 4]
  /\ log (ctl s)
     = [Write "TM1637:NUM:1200"; Sleep 1000;
        Write "TM1637:NUM:0005"; Sleep 1000].
Proof. vm_compute. repeat split. Qed.

(** A countdown, then a clock, then a countdown again, all within the
    second the first countdown sleeps: the first countdown finds
    [timer_active] true again and goes on. *)
Example stopped_countdown_comes_back :
  let s := run [Command "display timer:0:5"; Wake 0 noon;
                Command "display clock"; Wake 1 noon;
                Command "display timer:1:0"; Wake 2 noon;
                Wake 0 noon] started in
  tasks s = [Countdown_sleeping 3; Clock_sleeping; Countdown_sleeping 59].
Proof. vm_compute. reflexivity. Qed.

(** A command that does not parse leaves no coroutine, but the clock has
    been told to stop before the parse. *)
Example bad_timer_command :
  let s := run [Command "display clock"; Wake 0 noon;
                Command "display timer:soon"] started in
  tasks s = [Clock_sleeping] /\ clock_active (ctl s) = false.
Proof. vm_compute. repeat split. Qed.

End ConsoleExamples.

(* ===================================================================== *)
(** * What the tools of the server never do                               *)
(* ===================================================================== *)

Ltac unfold_tools :=
  unfold Server.led_on, Server.led_off, Server.led_blink, Server.led_toggle,
    Server.buzzer_on, Server.buzzer_off, Server.buzzer_beep,
    Server.lcd_write_line1, Server.lcd_write_line2, Server.lcd_clear,
    Server.lcd_backlight_on, Server.lcd_backlight_off,
    Server.lcd_display_message, Server.lcd_show_current_time,
    Server.lcd_start_stopwatch, Server.lcd_stop_stopwatch,
    Server.display_number, Server.display_time,
    Server.display_current_time, Server.display_start_stopwatch,
    Server.display_stop_stopwatch, Server.display_clear,
    Server.display_brightness, Server.display_timer,
    Server.ultrasonic_start, Server.ultrasonic_stop,
    Server.ultrasonic_read, Server.explain_display_capabilities,
    Server.get_system_status, Server.test_connection, Server.all_off,
    Server.welcome_message, Server.proximity_alert,
    Server.countdown_display, Server.display_info, Server.celebration,
    Server.when_timer_finishes, Server.when_time_equals,
    Server.when_distance_less_than, Server.show_live_ultrasonic_on_lcd,
    Server.get_current_status, Server.clear_all_pending_actions.

Section ToolInvariants.
Import Py Server.

(** ** Tools only add *)

Lemma only_adds_ret {A} (a : A) : only_adds (ret a).
Proof.
  intros w. simpl. repeat split; try (exists []; now rewrite app_nil_r).
Qed.

Lemma only_adds_raise {A} (e : exn) : only_adds (@raise A e).
Proof.
  intros w. simpl. repeat split; try (exists []; now rewrite app_nil_r).
Qed.

Lemma only_adds_gets {A} (f : world -> A) : only_adds (gets f).
Proof.
  intros w. simpl. repeat split; try (exists []; now rewrite app_nil_r).
Qed.

Lemma only_adds_lift_option {A} (e : exn) (o : option A) :
  only_adds (lift_option e o).
Proof. destruct o; [apply only_adds_ret | apply only_adds_raise]. Qed.

Lemma only_adds_get_arduino : only_adds get_arduino.
Proof.
  intros w. unfold get_arduino.
  destruct (connection_open w); [| destruct (port_available w)]; simpl;
    repeat split; try (exists []; now rewrite app_nil_r).
Qed.

Lemma only_adds_bind {A B} (c : M A) (k : A -> M B) :
  only_adds c -> (forall a, only_adds (k a)) -> only_adds (bind c k).
Proof.
  intros Hc Hk w. unfold bind. specialize (Hc w).
  destruct (c w) as [[a | e] w1]; simpl in *; [| exact Hc].
  destruct Hc as ((r1 & P1) & (c1 & S1) & X1).
  destruct (Hk a w1) as ((r2 & P2) & (c2 & S2) & X2).
  repeat split.
  - exists (r1 ++ r2)%list. now rewrite P2, P1, app_assoc.
  - exists (c1 ++ c2)%list. now rewrite S2, S1, app_assoc.
  - congruence.
Qed.

Lemma only_adds_try {A} (c : M A) (h : exn -> M A) :
  only_adds c -> (forall e, only_adds (h e)) -> only_adds (try_except c h).
Proof.
  intros Hc Hh w. unfold try_except. specialize (Hc w).
  destruct (c w) as [[a | e] w1]; simpl in *; [exact Hc |].
  destruct Hc as ((r1 & P1) & (c1 & S1) & X1).
  destruct (Hh e w1) as ((r2 & P2) & (c2 & S2) & X2).
  repeat split.
  - exists (r1 ++ r2)%list. now rewrite P2, P1, app_assoc.
  - exists (c1 ++ c2)%list. now rewrite S2, S1, app_assoc.
  - congruence.
Qed.

Lemma only_adds_for_each {A} (l : list A) (body : A -> M unit) :
  (forall a, only_adds (body a)) -> only_adds (for_each l body).
Proof.
  intros Hb. induction l as [| a l IH]; simpl.
  - apply only_adds_ret.
  - apply only_adds_bind; auto.
Qed.

Lemma only_adds_send_command (cmd : string) : only_adds (send_command cmd).
Proof.
  unfold send_command. apply only_adds_bind.
  - apply only_adds_get_arduino.
  - intros _ w. simpl. repeat split.
    + exists []. now rewrite app_nil_r.
    + now exists [cmd].
Qed.

Lemma only_adds_register (t : trigger) (a : string) (p : params) :
  only_adds (register t a p).
Proof.
  intros w. simpl. repeat split.
  - eexists. reflexivity.
  - exists []. now rewrite app_nil_r.
Qed.

Lemma only_adds_parse_action_params (a p err : string) :
  only_adds (parse_action_params a p err).
Proof.
  intros w. rewrite parse_action_params_pure.
  repeat split; try (exists []; now rewrite app_nil_r).
Qed.

Ltac adds :=
  repeat first
    [ progress intros
    | apply only_adds_parse_action_params
    | apply only_adds_register
    | apply only_adds_send_command
    | apply only_adds_get_arduino
    | apply only_adds_lift_option
    | apply only_adds_gets
    | apply only_adds_ret
    | apply only_adds_raise
    | apply only_adds_bind
    | apply only_adds_try
    | apply only_adds_for_each
    | match goal with
      | |- only_adds (if ?b then _ else _) => destruct b
      | |- only_adds (match ?x with _ => _ end) => destruct x
      end ].

Section AnyFloatParser.

Variable py_float : string -> option pyfloat.

(** X1.  Whatever tool is called, except [clear_all_pending_actions], the
    rules that were pending are still pending afterwards, in front of any
    new one and in the same order; the commands that were sent are still
    the beginning of what has been sent; and no action was executed. *)
Theorem tools_only_add (tc : tool_call) (w : world) :
  is_clear_all tc = false ->
  let w' := exec (call py_float tc) w in
  (exists rules, pending_actions w' = (pending_actions w ++ rules)%list)
  /\ (exists cmds, sent w' = (sent w ++ cmds)%list)
  /\ executed w' = executed w.
Proof.
  intros Hc. unfold exec.
  assert (K : only_adds (call py_float tc)).
  { destruct tc; try discriminate; simpl; unfold_tools; adds. }
  apply K.
Qed.

End AnyFloatParser.

End ToolInvariants.

Section Connection.
Import Py Server.

(** ** With the connection open *)










(** ** With the connection closed and the port not there *)

Lemma get_arduino_unreachable (w : world) :
  reachable w = false -> get_arduino w = (Raise ConnectionFailed, w).
Proof.
  unfold reachable, get_arduino. intros H.
  apply orb_false_iff in H. destruct H as [-> ->]. reflexivity.
Qed.

Lemma send_command_unreachable (cmd : string) (w : world) :
  reachable w = false -> send_command cmd w = (Raise ConnectionFailed, w).
Proof.
  intros H. unfold send_command.
  now rewrite (bind_raise _ _ _ _ _ (get_arduino_unreachable w H)).
Qed.

Lemma inert_ret {A} (a : A) : inert (ret a).
Proof. intros w _. reflexivity. Qed.

Lemma inert_after_send {A} (cmd : string) (k : unit -> M A) :
  inert (bind (send_command cmd) k).
Proof.
  intros w H. now rewrite (bind_raise _ _ _ _ _ (send_command_unreachable cmd w H)).
Qed.

Lemma inert_after_get_arduino {A} (k : unit -> M A) :
  inert (bind get_arduino k).
Proof.
  intros w H. now rewrite (bind_raise _ _ _ _ _ (get_arduino_unreachable w H)).
Qed.

Lemma inert_try {A} (c : M A) (h : exn -> M A) :
  inert c -> (forall e, inert (h e)) -> inert (try_except c h).
Proof.
  intros Hc Hh w H. unfold try_except. specialize (Hc w H).
  destruct (c w) as [[a | e] w1]; simpl in *; subst; [reflexivity |].
  now apply Hh.
Qed.

Ltac inertly :=
  repeat first
    [ progress intros
    | apply inert_after_send
    | apply inert_after_get_arduino
    | apply inert_ret
    | apply inert_try
    | match goal with
      | |- inert (if ?b then _ else _) => destruct b
      | |- inert (match ?x with _ => _ end) => destruct x
      end ].

Lemma mute_of_pure {A} (c : M A) :
  (forall w, snd (c w) = w) -> mute c.
Proof. intros H w Hr. rewrite H. auto. Qed.

Lemma mute_bind {A B} (c : M A) (k : A -> M B) :
  mute c -> (forall a, mute (k a)) -> mute (bind c k).
Proof.
  intros Hc Hk w Hr. unfold bind. specialize (Hc w Hr).
  destruct (c w) as [[a | e] w1]; simpl in *; [| exact Hc].
  destruct Hc as (S1 & X1 & R1). destruct (Hk a w1 R1) as (S2 & X2 & R2).
  repeat split; congruence.
Qed.

Lemma mute_try {A} (c : M A) (h : exn -> M A) :
  mute c -> (forall e, mute (h e)) -> mute (try_except c h).
Proof.
  intros Hc Hh w Hr. unfold try_except. specialize (Hc w Hr).
  destruct (c w) as [[a | e] w1]; simpl in *; [exact Hc |].
  destruct Hc as (S1 & X1 & R1). destruct (Hh e w1 R1) as (S2 & X2 & R2).
  repeat split; congruence.
Qed.

Lemma mute_for_each {A} (l : list A) (body : A -> M unit) :
  (forall a, mute (body a)) -> mute (for_each l body).
Proof.
  intros Hb. induction l as [| a l IH]; simpl.
  - now apply mute_of_pure.
  - apply mute_bind; auto.
Qed.

Lemma mute_send_command (cmd : string) : mute (send_command cmd).
Proof. intros w Hr. rewrite send_command_unreachable by exact Hr. auto. Qed.

Lemma mute_get_arduino : mute get_arduino.
Proof. intros w Hr. rewrite get_arduino_unreachable by exact Hr. auto. Qed.

Lemma mute_set_pending (f : list action -> list action) :
  mute (modify (set_pending f)).
Proof. intros w Hr. simpl. auto. Qed.

Lemma mute_lift_option {A} (e : exn) (o : option A) : mute (lift_option e o).
Proof. apply mute_of_pure. intros w. now destruct o. Qed.

Ltac mutely :=
  repeat first
    [ progress intros
    | apply mute_send_command
    | apply mute_get_arduino
    | apply mute_set_pending
    | apply mute_lift_option
    | solve [apply mute_of_pure; intros; reflexivity]
    | solve [apply mute_of_pure; apply parse_action_params_pure]
    | apply mute_bind
    | apply mute_try
    | apply mute_for_each
    | match goal with
      | |- mute (if ?b then _ else _) => destruct b
      | |- mute (match ?x with _ => _ end) => destruct x
      end ].

Section AnyFloatParser.

Variable py_float : string -> option pyfloat.



(** X3.  With the connection closed and the port not there, no tool
    sends a command or executes an action, and a tool that is neither a
    registration nor [clear_all_pending_actions] changes nothing at all:
    [show_live_ultrasonic_on_lcd], for one, queues no rule.  The monitor
    changes nothing either, whatever line is waiting. *)
Theorem nothing_happens_without_connection (tc : tool_call) (w : world) :
  reachable w = false ->
  (sent (exec (call py_float tc) w) = sent w
   /\ executed (exec (call py_float tc) w) = executed w
   /\ reachable (exec (call py_float tc) w) = false)
  /\ (registration_of tc = None -> is_clear_all tc = false ->
      exec (call py_float tc) w = w)
  /\ (forall now incoming,
        exec (monitor_arduino_status py_float now incoming) w = w).
Proof.
  intros Hr. unfold exec. split; [| split].
  - assert (K : mute (call py_float tc)).
    { destruct tc; simpl; unfold_tools; unfold register; mutely. }
    apply K. exact Hr.
  - intros Hn Hc.
    assert (K : inert (call py_float tc)).
    { destruct tc; try discriminate; simpl; unfold_tools;
        try solve [inertly].
      unfold when_time_equals. simpl in Hn.
      destruct (is_hhmmss target_time); [discriminate |]. simpl.
      apply inert_ret. }
    apply K. exact Hr.
  - intros now incoming. unfold monitor_arduino_status, try_except.
    now rewrite (bind_raise _ _ _ _ _ (get_arduino_unreachable w Hr)).
Qed.

End AnyFloatParser.

End Connection.

(* ===================================================================== *)
(** * The rule engine over sequences of events                            *)
(* ===================================================================== *)

Section Sequences.
Import Py Server.

Lemma filter_filter {A} (f g : A -> bool) (l : list A) :
  filter f (filter g l) = filter (fun a => g a && f a) l.
Proof.
  induction l as [| a l IH]; simpl; [reflexivity |].
  destruct (g a); simpl; [destruct (f a) |]; now rewrite IH.
Qed.

Lemma filter_split_perm {A} (f : A -> bool) (l : list A) :
  Permutation l (filter (fun a => negb (f a)) l ++ filter f l).
Proof.
  induction l as [| a l IH]; simpl; [constructor |].
  destruct (f a); simpl.
  - now apply Permutation_cons_app.
  - now constructor.
Qed.

(** X4.  After any sequence of events the pending rules are the rules
    that were pending and that no event of the sequence matched, in their
    old order; the executed actions are the old ones followed by the rules
    the events matched, event after event; and every rule that was pending
    is either still pending or has been executed exactly once. *)
Theorem rule_engine_over_events (ds : list delivery) (w : world) :
  connection_open w = true ->
  let w' := run_events ds w in
  pending_actions w' = filter (survives ds) (pending_actions w)
  /\ executed w' = (executed w ++ fired ds (pending_actions w))%list
  /\ Permutation (pending_actions w)
       (pending_actions w' ++ fired ds (pending_actions w)).
Proof.
  cbv zeta. revert w. induction ds as [| d ds IH]; intros w Ho; simpl.
  - rewrite filter_all by reflexivity. rewrite !app_nil_r. auto.
  - destruct (deliver_spec d w Ho) as (P & [_ X O _] & _).
    destruct (IH (deliver w d) O) as (P' & X' & M').
    split; [| split].
    + now rewrite P', P, filter_filter.
    + now rewrite X', X, P, <- app_assoc.
    + rewrite P in M'.
      etransitivity; [apply (filter_split_perm (matches (snd d))) |].
      etransitivity; [apply Permutation_app_tail; exact M' |].
      rewrite <- app_assoc. apply Permutation_app_head.
      apply Permutation_app_comm.
Qed.

(** X5.  A rule of [show_live_ultrasonic_on_lcd] is never used up: no
    sequence of events executes it or takes it off the pending list.  And
    a distance report writes the distance to the second line of the
    character display once for every such rule that is pending, before the
    commands of the rules it fires. *)
Theorem distance_echo_rule_persists
  (r : action) (ds : list delivery) (now : timestamp) (cm : pyfloat)
  (w : world) :
  connection_open w = true ->
  action_trigger r = distance_update ->
  occurrences r (pending_actions (run_events ds w))
  = occurrences r (pending_actions w)
  /\ occurrences r (executed (run_events ds w)) = occurrences r (executed w)
  /\ sent (deliver w (now, DistanceReport cm))
     = (sent w
        ++ map (fun _ =>
                  ("LCD:LINE2:" ++ format_fixed 2 cm ++ " cm       ")%string)
             (filter is_distance_update (pending_actions w))
        ++ flat_map commands_of
             (filter (matches (DistanceReport cm)) (pending_actions w)))%list.
Proof.
  intros Ho Hr.
  assert (Hm : forall d : delivery, matches (snd d) r = false).
  { intros [t ev]. unfold matches. rewrite Hr. now destruct ev. }
  destruct (run_events_miss r ds w Ho) as [X P]; [auto |].
  repeat split; try assumption.
  destruct (deliver_spec (now, DistanceReport cm) w Ho) as (_ & [S _ _ _] & _).
  exact S.
Qed.

End Sequences.

(* ===================================================================== *)
(** * Lines the monitor does not take                                     *)
(* ===================================================================== *)

Section DroppedLines.
Import Py Server.

Variable py_float : string -> option pyfloat.


End DroppedLines.

(* ===================================================================== *)
(** * Validation comes before any command                                 *)
(* ===================================================================== *)

Section Validation.
Import Py Server.

Lemma confirms_ret_confirmed : confirms (ret Confirmed).
Proof. intros w msg. discriminate. Qed.

Lemma confirms_ret_cleared (n : Z) : confirms (ret (Cleared n)).
Proof. intros w msg. discriminate. Qed.

Lemma confirms_ret_not_connected : confirms (ret NotConnected).
Proof. intros w msg. discriminate. Qed.

Lemma confirms_bind {A} (c : M A) (k : A -> M reply) :
  (forall a, confirms (k a)) -> confirms (bind c k).
Proof.
  intros Hk w msg. unfold bind.
  destruct (c w) as [[a | e] w1]; [apply Hk | discriminate].
Qed.

Lemma confirms_try (c : M reply) (h : exn -> M reply) :
  confirms c -> (forall e, confirms (h e)) -> confirms (try_except c h).
Proof.
  intros Hc Hh w msg. unfold try_except. specialize (Hc w msg).
  destruct (c w) as [[a | e] w1]; [exact Hc | apply Hh].
Qed.

Lemma checks_first_of_confirms (c : M reply) : confirms c -> checks_first c.
Proof. intros Hc w msg H. now apply Hc in H. Qed.

Lemma checks_first_ret (r : reply) : checks_first (ret r).
Proof. intros w msg _. reflexivity. Qed.

Lemma checks_first_registrar (t : trigger) (a p err : string) :
  checks_first
    (r <- parse_action_params a p err ;;
     match r with
     | inl msg => ret (ErrorText msg)
     | inr ps => register t a ps ;; ret Confirmed
     end).
Proof.
  intros w msg. pose proof (parse_action_params_pure a p err w) as Hp.
  destruct (parse_action_params a p err w) as [[[m | ps] | e] w1] eqn:Ep;
    simpl in Hp; subst w1.
  - now rewrite (bind_ok _ _ _ _ _ Ep).
  - rewrite (bind_ok _ _ _ _ _ Ep). discriminate.
  - now rewrite (bind_raise _ _ _ _ _ Ep).
Qed.

Ltac confirming :=
  repeat first
    [ progress intros
    | apply confirms_ret_confirmed
    | apply confirms_ret_cleared
    | apply confirms_ret_not_connected
    | apply confirms_bind
    | apply confirms_try
    | match goal with
      | |- confirms (match ?x with _ => _ end) => destruct x
      end ].

Ltac checking :=
  repeat first
    [ progress intros
    | apply checks_first_ret
    | apply checks_first_registrar
    | solve [apply checks_first_of_confirms; confirming]
    | match goal with
      | |- checks_first (if ?b then _ else _) => destruct b
      end ].

Section AnyFloatParser.

Variable py_float : string -> option pyfloat.

(** X7.  A tool that answers with an error text has done nothing: it
    has sent no command and queued no rule.  The two tools that read a
    reply from the port, [ultrasonic_read] and [proximity_alert], are the
    exception: their error text comes after their command. *)
Theorem error_text_means_nothing_done
  (tc : tool_call) (w : world) (msg : string) :
  reads_reply tc = false ->
  fst (call py_float tc w) = Ok (ErrorText msg) ->
  exec (call py_float tc) w = w.
Proof.
  intros Hr. unfold exec.
  assert (K : checks_first (call py_float tc)).
  { destruct tc; try discriminate; simpl; unfold_tools; checking. }
  apply K.
Qed.

End AnyFloatParser.

End Validation.

(* ===================================================================== *)
(** * From the monitor to the rule engine                                 *)
(* ===================================================================== *)

Section MonitorRefinesEngine.
Import Py Server.

Variable py_float : string -> option pyfloat.

(** One iteration of the monitor, by cases on what was waiting. *)
Lemma monitor_iteration_cases
  (now : timestamp) (incoming : option string) (w : world) :
  connection_open w = true ->
  let w' := exec (monitor_arduino_status py_float now incoming) w in
  connection_open w' = true
  /\ (w' = w
      \/ exists raw ev,
           incoming = Some raw
           /\ classify py_float (strip raw) w = (Ok ev, w)
           /\ w' = deliver w (now, ev)).
Proof.
  intros Ho. unfold exec, monitor_arduino_status, try_except.
  assert (Eg : get_arduino w = (Ok tt, w))
    by (unfold get_arduino; now rewrite Ho).
  rewrite (bind_ok _ _ _ _ _ Eg).
  destruct incoming as [raw |]; [| simpl; auto].
  pose proof (classify_pure py_float (strip raw) w) as Hp.
  destruct (classify py_float (strip raw) w) as [[ev | e] w1] eqn:Ec;
    simpl in Hp; subst w1.
  - rewrite (bind_ok _ _ _ _ _ Ec).
    destruct (on_event_spec now ev w Ho) as (w2 & E2 & _ & [_ _ O _] & _).
    cbv beta. rewrite E2. cbn [snd]. split; [exact O |].
    right. exists raw, ev. split; [reflexivity |]. split; [exact Ec |].
    unfold deliver, exec. cbn [fst snd]. now rewrite E2.
  - rewrite (bind_raise _ _ _ _ _ Ec). simpl. auto.
Qed.


(** ** A clock report never ends in white space *)

Lemma lstrip_head (s : string) (c : ascii) (r : string) :
  lstrip s = String c r -> is_space c = false.
Proof.
  induction s as [| d s IH]; simpl; [discriminate |].
  destruct (is_space d) eqn:Hd; [exact IH |].
  intros H. inversion H. now subst.
Qed.

Lemma last_char_snoc (l : list ascii) (c : ascii) :
  last_char (string_of_list_ascii (l ++ [c])) = Some c.
Proof.
  induction l as [| d l IH]; simpl; [reflexivity |].
  rewrite IH. now destruct (string_of_list_ascii (l ++ [c])).
Qed.

Lemma strip_last (s : string) (c : ascii) :
  last_char (strip s) = Some c -> is_space c = false.
Proof.
  unfold strip, rstrip.
  destruct (lstrip (rev_string (lstrip s))) as [| d r] eqn:E.
  - discriminate.
  - unfold rev_string. simpl. rewrite last_char_snoc.
    intros H. inversion H. subst. eapply lstrip_head. exact E.
Qed.

Lemma last_char_app (p r : string) :
  r <> "" -> last_char (p ++ r) = last_char r.
Proof.
  intros Hr. induction p as [| c p IH]; simpl; [reflexivity |].
  rewrite IH. destruct (p ++ r) eqn:E; [| reflexivity].
  destruct p; simpl in E; [contradiction | discriminate E].
Qed.

Lemma startswith_app (p s : string) :
  startswith s p = true -> exists rest, s = p ++ rest.
Proof.
  unfold startswith. revert s. induction p as [| c p IH]; intros s.
  - intros _. now exists s.
  - destruct s as [| d s]; simpl; [discriminate |].
    destruct (ascii_dec c d) as [-> | N]; [| discriminate].
    intros H. destruct (IH s H) as (rest & ->). now exists rest.
Qed.

(** The only lines classified as clock reports are [CLOCK:LCD:] followed
    by the reported string. *)
Lemma classify_clock_inv (line s : string) (w : world) :
  fst (classify py_float line w) = Ok (ClockReport s) ->
  line = "CLOCK:LCD:" ++ s.
Proof.
  unfold classify.
  destruct (startswith line "TIMER:REMAINING:").
  { unfold bind, item, lift_option.
    destruct (nth_error (split ":" line) 2); simpl; [| discriminate].
    destruct (int s0); simpl; discriminate. }
  destruct (startswith line "COUNTDOWN:FINISHED"); [discriminate |].
  destruct (startswith line "CLOCK:LCD:") eqn:Hc.
  { apply startswith_app in Hc. destruct Hc as (rest & ->).
    pose proof (classify_clock py_float rest w) as E.
    unfold classify in E. simpl in E. rewrite startswith_nothing in E.
    simpl. rewrite E. simpl. intros H. inversion H. reflexivity. }
  destruct (startswith line "DISTANCE:"); [| discriminate].
  unfold bind, item, lift_option.
  destruct (nth_error (split ":" line) 1); simpl; [| discriminate].
  destruct (py_float s0); simpl; discriminate.
Qed.

Lemma clock_report_last (raw s : string) (c : ascii) (w : world) :
  fst (classify py_float (strip raw) w) = Ok (ClockReport s) ->
  last_char s = Some c -> is_space c = false.
Proof.
  intros Hc Hl. apply classify_clock_inv in Hc.
  apply (strip_last raw). rewrite Hc, last_char_app; [exact Hl |].
  intros ->. discriminate.
Qed.

Lemma with_newline_is_hhmmss (hhmmss : string) :
  is_hhmmss hhmmss = true -> String.length hhmmss = 8%nat ->
  is_hhmmss (hhmmss ++ String "010" "") = true.
Proof.
  intros Ht Hl.
  destruct hhmmss as [| a [| b [| c [| d [| e [| f [| g [| h [| i r]]]]]]]]];
    simpl in Hl; try discriminate.
  exact Ht.
Qed.

(** X9.  [when_time_equals] accepts a time followed by a newline, because
    [$] in its pattern matches before a final newline: it answers as it
    does for the time itself.  But the rule it queues can never fire: the
    monitor strips the lines it reads, so no clock report ends in white
    space.  Whatever lines the monitor reads, the rule stays pending and
    is not executed. *)
Theorem time_with_newline_is_accepted_and_never_fires
  (hhmmss then_action action_params : string) (w0 : world)
  (inputs : list (timestamp * option string)) :
  is_hhmmss hhmmss = true ->
  String.length hhmmss = 8%nat ->
  connection_open w0 = true ->
  let target := hhmmss ++ String "010" "" in
  fst (when_time_equals target then_action action_params w0)
  = fst (when_time_equals hhmmss then_action action_params w0)
  /\ forall w,
       when_time_equals target then_action action_params w0
       = (Ok Confirmed, w) ->
       exists r,
         action_trigger r = time_equals target
         /\ pending_actions w = (pending_actions w0 ++ [r])%list
         /\ occurrences r (pending_actions (run_monitor py_float inputs w))
            = occurrences r (pending_actions w)
         /\ occurrences r (executed (run_monitor py_float inputs w))
            = occurrences r (executed w).
Proof.
  intros Ht Hl Ho target.
  pose proof (with_newline_is_hhmmss hhmmss Ht Hl) as Ht'. fold target in Ht'.
  split.
  { unfold when_time_equals. rewrite Ht, Ht'. simpl.
    pose proof (parse_action_params_pure then_action action_params
                  "Error: Timer format must be MM:SS" w0) as Hp.
    destruct (parse_action_params then_action action_params
                "Error: Timer format must be MM:SS" w0)
      as [[[m | ps] | e] w1] eqn:Ep; simpl in Hp; subst w1.
    - now rewrite !(bind_ok _ _ _ _ _ Ep).
    - now rewrite !(bind_ok _ _ _ _ _ Ep).
    - now rewrite !(bind_raise _ _ _ _ _ Ep). }
  intros w Hreg. unfold when_time_equals in Hreg.
  rewrite Ht' in Hreg. simpl in Hreg.
  apply registered in Hreg. destruct Hreg as (p & _ & ->).
  set (r := {| action_trigger := time_equals target;
               action_type := then_action; action_params := p |}).
  exists r. do 2 (split; [reflexivity |]).
  assert (Hlast : last_char target = Some "010"%char).
  { unfold target. rewrite last_char_app; [reflexivity | discriminate]. }
  set (w := set_pending _ w0). assert (Hw : connection_open w = true) by exact Ho.
  clearbody w. revert w Hw.
  induction inputs as [| [now incoming] inputs IH]; intros w Hw; simpl; auto.
  destruct (monitor_iteration_cases now incoming w Hw)
    as (O & [E | (raw & ev & _ & Ec & E)]).
  - simpl. rewrite E. now apply IH.
  - simpl. destruct (IH _ O) as [P X]. rewrite P, X, E.
    assert (Hm : matches ev r = false).
    { destruct ev; try reflexivity. simpl.
      destruct (String.eqb time_str target) eqn:Heq; [| reflexivity].
      apply String.eqb_eq in Heq. subst time_str.
      assert (Hs : is_space "010" = false).
      { eapply clock_report_last; [| exact Hlast]. now rewrite Ec. }
      discriminate. }
    destruct (deliver_miss r (now, ev) w Hw Hm) as [X' P']. auto.
Qed.

(** ** A timer a rule starts *)




End MonitorRefinesEngine.

(* ===================================================================== *)
(** * What the tools put on the displays                                  *)
(* ===================================================================== *)

Section Displays.
Import Py Server.

Variable py_float : string -> option pyfloat.

Lemma two_digits_below_hundred (n : Z) :
  0 <= n < 100 ->
  String.length (format_02d n) = 2%nat /\ int (format_02d n) = Some n.
Proof.
  intros H.
  assert (A : forallb (fun k => two_digits (Z.of_nat k)) (seq 0 100) = true)
    by (vm_compute; reflexivity).
  rewrite forallb_forall in A. specialize (A (Z.to_nat n)).
  rewrite Z2Nat.id in A by lia.
  assert (I : In (Z.to_nat n) (seq 0 100)) by (apply in_seq; lia).
  apply A in I. unfold two_digits in I. apply andb_true_iff in I.
  destruct I as [L R]. apply Nat.eqb_eq in L. split; [exact L |].
  destruct (int (format_02d n)) as [m |]; [| discriminate].
  apply Z.eqb_eq in R. now subst.
Qed.

Lemma take_app_exact (a b : string) : take (String.length a) (a ++ b) = a.
Proof. unfold take. induction a as [| c a IH]; simpl; [now destruct b | now rewrite IH]. Qed.

Lemma drop_app_exact (a b : string) : drop (String.length a) (a ++ b) = b.
Proof. induction a as [| c a IH]; simpl; [reflexivity | exact IH]. Qed.

Lemma length_append (a b : string) :
  String.length (a ++ b) = (String.length a + String.length b)%nat.
Proof. induction a as [| c a IH]; simpl; [reflexivity | now rewrite IH]. Qed.

(** The text of a remaining time below a hundred minutes: four
    characters, the first two reading back as the minutes and the last two
    as the seconds. *)
Lemma remaining_time_text (total : Z) :
  0 <= total < 6000 ->
  let t := format_02d (total / 60) ++ format_02d (total mod 60) in
  String.length t = 4%nat
  /\ int (take 2 t) = Some (total / 60)
  /\ int (drop 2 t) = Some (total mod 60).
Proof.
  intros H t.
  assert (Hm : 0 <= total / 60 < 100).
  { split; [apply Z.div_pos; lia | apply Z.div_lt_upper_bound; lia]. }
  assert (Hs : 0 <= total mod 60 < 100).
  { pose proof (Z.mod_pos_bound total 60). lia. }
  destruct (two_digits_below_hundred _ Hm) as [Lm Im].
  destruct (two_digits_below_hundred _ Hs) as [Ls Is].
  unfold t. rewrite length_append, Lm, Ls.
  split; [reflexivity |].
  pose proof (take_app_exact (format_02d (total / 60))
                (format_02d (total mod 60))) as T.
  pose proof (drop_app_exact (format_02d (total / 60))
                (format_02d (total mod 60))) as D.
  rewrite Lm in T, D. rewrite T, D. auto.
Qed.

Lemma get_arduino_open (w : world) :
  connection_open w = true -> get_arduino w = (Ok tt, w).
Proof. unfold get_arduino. now intros ->. Qed.

Ltac sending H :=
  repeat match goal with
         | |- context [bind (send_command ?cmd) ?k ?w] =>
             rewrite (bind_ok (send_command cmd) k w _ tt
                        (send_command_open cmd w H))
         end.

(** X11.  [countdown_display] with a number of seconds it accepts sends
    one line to the numeric display: four characters, of which the first
    two read back as the minutes and the last two as the seconds. *)
Theorem countdown_display_sends_four_digits (seconds : Z) (w : world) :
  connection_open w = true ->
  0 <= seconds <= 5940 ->
  exists t,
    countdown_display seconds w
    = (Ok Confirmed,
       set_sent (fun l => (l ++ [("TM1637:NUM:" ++ t)%string])%list) w)
    /\ String.length t = 4%nat
    /\ int (take 2 t) = Some (seconds / 60)
    /\ int (drop 2 t) = Some (seconds mod 60).
Proof.
  intros Ho H.
  exists (format_02d (seconds / 60) ++ format_02d (seconds mod 60)).
  split; [| apply remaining_time_text; lia].
  unfold countdown_display.
  replace (seconds <? 0) with false by (symmetry; apply Z.ltb_ge; lia).
  replace (seconds >? 5940) with false
    by (symmetry; rewrite Z.gtb_ltb; apply Z.ltb_ge; lia).
  cbn [orb]. sending Ho. reflexivity.
Qed.

Lemma not_below_zero (d : pyfloat) :
  float_lt d (float_of_int 0) = false ->
  float_lt d (float_of_int 10) = true ->
  float_ge d (float_of_int 0) = true.
Proof.
  unfold float_ge.
  destruct d as [| [|] | | q]; cbn; try discriminate; try reflexivity.
  intros H0 _. apply orb_true_iff.
  assert (Hq : (0 <= q)%Q).
  { apply Qnot_lt_le. intros L. apply Qlt_bool_iff in L.
    pose proof (eq_trans (eq_sym L) H0) as F. discriminate F. }
  destruct (Qle_lt_or_eq _ _ Hq) as [L | E].
  - left. now apply Qlt_bool_iff.
  - right. apply Qeq_bool_iff. now symmetry.
Qed.

(** X12.  [proximity_alert] with a reading: it sends [ULTRA:READ] first,
    and it switches the buzzer on exactly when the reading is at least
    zero and below ten.  A reading that is not a number is reported as all
    clear. *)
Theorem proximity_alert_levels
  (waiting : option string) (d : pyfloat) (w : world) :
  connection_open w = true ->
  read_ultra py_float waiting = Some d ->
  exists cmds,
    sent (exec (proximity_alert py_float waiting) w)
    = (sent w ++ "ULTRA:READ" :: cmds)%list
    /\ (In "BUZZER:ON" cmds
        <-> float_ge d (float_of_int 0) = true
            /\ float_lt d (float_of_int 10) = true)
    /\ (d = FNaN ->
        fst (proximity_alert py_float waiting w) = Ok Confirmed
        /\ cmds = ["LED:OFF"; "BUZZER:OFF"; "LCD:LINE1:Clear";
                   "LCD:LINE2:nan cm"]).
Proof.
  intros Ho Hr. unfold exec, proximity_alert.
  rewrite (bind_ok _ _ _ _ _ (get_arduino_open w Ho)).
  sending Ho. rewrite Hr.
  destruct (float_lt d (float_of_int 0)) eqn:L0.
  { exists []. split; [reflexivity |]. split.
    - split; [intros [] |]. intros [G _].
      apply float_ge_not_lt in G. rewrite G in L0. discriminate L0.
    - intros ->. discriminate L0. }
  destruct (float_lt d (float_of_int 10)) eqn:L10.
  { sending Ho. eexists. split; [cbn; rewrite <- !app_assoc; reflexivity |].
    split.
    - split; [intros _ | intros _; now left].
      split; [now apply not_below_zero | reflexivity].
    - intros ->. discriminate L10. }
  destruct (float_lt d (float_of_int 30)) eqn:L30.
  { sending Ho. eexists. split; [cbn; rewrite <- !app_assoc; reflexivity |].
    split.
    - split; [| intros [_ F]; discriminate F].
      intros [F | [F | [F | [F | []]]]]; discriminate F.
    - intros ->. discriminate L30. }
  sending Ho. eexists. split; [cbn; rewrite <- !app_assoc; reflexivity |].
  split.
  - split; [| intros [_ F]; discriminate F].
    intros [F | [F | [F | [F | []]]]]; discriminate F.
  - intros ->. split; reflexivity.
Qed.

End Displays.

(* ===================================================================== *)
(** * The console: more of [master_control.py]                            *)
(* ===================================================================== *)

Section Console.
Import Py Control.

Lemma display_writes_app (l1 l2 : list io) :
  display_writes (l1 ++ l2) = (display_writes l1 ++ display_writes l2)%list.
Proof. apply flat_map_app. Qed.

Lemma countdown_log_writes (n : nat) :
  List.length (display_writes (countdown_log n)) = S n.
Proof.
  induction n as [| n IH]; [reflexivity |].
  cbn [countdown_log display_writes flat_map].
  change (flat_map _ (countdown_log n)) with (display_writes (countdown_log n)).
  replace (startswith _ "TM1637:NUM:") with true.
  - simpl. now rewrite IH.
  - symmetry. unfold startswith. simpl. apply startswith_nothing.
Qed.

(** X13.  A countdown started with any minutes and seconds, on a
    controller that is connected and running, and left alone: when the
    total is [n >= 0] seconds it writes the [n + 1] remaining times from [n]
    down to zero, beeps three times and ends with [timer_active] false;
    when the total is negative it ends at once and writes nothing.  The
    seconds need not be below sixty. *)
Theorem countdown_from_any_start
  (minutes seconds : Z) (fuel : nat) (now : wallclock) (c : controller) :
  arduino c = Some true -> running c = true ->
  let total := minutes * 60 + seconds in
  (0 <= total ->
   exists c',
     run_alone (Z.to_nat total + 4 + fuel) now
       (Countdown_created minutes seconds) c = (c', Finished)
     /\ log c' = (log c ++ countdown_log (Z.to_nat total))%list
     /\ List.length (display_writes (countdown_log (Z.to_nat total)))
        = S (Z.to_nat total)
     /\ timer_active c' = false)
  /\ (total < 0 ->
      resume now (Countdown_created minutes seconds) c
      = (with_timer_active false c, Finished)).
Proof.
  intros Ha Hr total. split; intros Ht.
  - destruct (countdown_runs (Z.to_nat total) fuel now (with_timer_active true c))
      as (c' & E & L & T & _); try solve [simpl; auto].
    exists c'. rewrite Z2Nat.id in E by exact Ht.
    split; [| split; [exact L | split; [apply countdown_log_writes | exact T]]].
    rewrite <- E.
    replace (Z.to_nat total + 4 + fuel)%nat
      with (S (Z.to_nat total + 3 + fuel)) by lia.
    reflexivity.
  - cbn [resume]. fold total. unfold countdown_loop.
    replace (0 <=? total) with false by (symmetry; apply Z.leb_gt; exact Ht).
    reflexivity.
Qed.

Lemma console_display_stop (cmd : string) (rest : list string) (s : system) :
  split_words (lower (strip cmd)) = "display" :: "stop" :: rest ->
  process_command cmd s = (update stop_timer (update stop_clock s), true).
Proof. intros H. unfold process_command. now rewrite H. Qed.

(** X14.  [display stop] writes nothing and creates nothing; after it a
    sleeping clock and a sleeping countdown end at their next turn
    without a write, the clock of the character display is not touched,
    and a countdown that has reached its beeps goes on beeping. *)
Theorem display_stop_ends_sleeping_routines
  (cmd : string) (rest : list string) (s : system) (now : wallclock) :
  split_words (lower (strip cmd)) = "display" :: "stop" :: rest ->
  let s' := fst (process_command cmd s) in
  tasks s' = tasks s
  /\ log (ctl s') = log (ctl s)
  /\ resume now Clock_sleeping (ctl s') = (ctl s', Finished)
  /\ (forall n, resume now (Countdown_sleeping n) (ctl s') = (ctl s', Finished))
  /\ lcd_clock_active (ctl s') = lcd_clock_active (ctl s)
  /\ (forall k, arduino (ctl s) = Some true ->
        log (fst (resume now (Countdown_beeping (S k)) (ctl s')))
        = (log (ctl s) ++ [Write "BUZZER:BEEP:300"; Sleep 500])%list).
Proof.
  intros H s'. unfold s'. rewrite (console_display_stop cmd rest s H).
  cbn [fst]. do 2 (split; [reflexivity |]).
  split; [reflexivity |].
  split.
  { intros n. cbn [resume]. unfold countdown_loop. cbn.
    now rewrite andb_false_r. }
  split; [reflexivity |].
  intros k Ha. cbn [resume]. unfold buzzer_beep, send_command. cbn.
  rewrite Ha. cbn. now rewrite <- app_assoc.
Qed.

Lemma send_command_closed (cmd : string) (c : controller) :
  arduino c <> Some true -> send_command cmd c = c.
Proof.
  unfold send_command. destruct (arduino c) as [[|] |]; auto.
  intros H. now contradiction H.
Qed.

Lemma written_snoc_sleep (l : list io) (ms : Z) :
  written (l ++ [Sleep ms]) = written l.
Proof. unfold written. rewrite flat_map_app. simpl. apply app_nil_r. Qed.

Ltac split_cases :=
  repeat match goal with
         | |- context [match ?x with _ => _ end] => destruct x eqn:?
         end.

Ltac closed H :=
  repeat match goal with
         | |- context [send_command ?cmd ?c] =>
             rewrite (send_command_closed cmd c) by (simpl; exact H)
         end.

Lemma send_command_port (cmd : string) (c : controller) :
  arduino (send_command cmd c) = arduino c
  /\ running (send_command cmd c) = running c.
Proof. unfold send_command. destruct (arduino c) as [[|] |] eqn:E; cbn; auto. Qed.

Ltac ports :=
  repeat match goal with
         | |- context [send_command ?cmd ?c] =>
             let A := fresh in let R := fresh in
             destruct (send_command_port cmd c) as [A R];
             revert A R; generalize (send_command cmd c);
             intros ? A R; cbn; rewrite ?A, ?R
         end.

(** No command and no coroutine opens or closes the port, or touches
    [running]. *)
Lemma do_step_port (st : step) (s : system) :
  arduino (ctl (do_step st s)) = arduino (ctl s)
  /\ running (ctl (do_step st s)) = running (ctl s).
Proof.
  destruct st as [cmd | i now]; cbn [do_step].
  - unfold process_command. split_cases; cbn [fst];
      unfold update, create_task, led_on, led_off, led_blink, led_toggle,
        buzzer_on, buzzer_off, buzzer_beep, lcd_write, lcd_clear,
        display_number, display_clear, display_brightness,
        ultrasonic_start, ultrasonic_stop, ultrasonic_read, get_status,
        stop_clock, stop_timer, stop_lcd_clock, sleeping;
      cbn; ports; auto.
  - unfold wake. destruct (nth_error (tasks s) i) as [t |]; [| auto].
    destruct (resume now t (ctl s)) as [c t'] eqn:R. cbn.
    replace c with (fst (resume now t (ctl s))) by now rewrite R.
    clear R.
    destruct t as [| | m sec | n | [| k] | | |]; cbn [resume];
      unfold clock_loop, countdown_loop, lcd_clock_loop, buzzer_beep,
        sleeping;
      split_cases; cbn; ports; auto.
Qed.

Lemma run_port (steps : list step) (s : system) :
  arduino (ctl (run steps s)) = arduino (ctl s)
  /\ running (ctl (run steps s)) = running (ctl s).
Proof.
  revert s. induction steps as [| st steps IH]; intros s; [auto |].
  change (run (st :: steps) s) with (run steps (do_step st s)).
  destruct (IH (do_step st s)) as [A R]. destruct (do_step_port st s) as [A' R'].
  rewrite A, R, A', R'. auto.
Qed.

Lemma process_command_closed (cmd : string) (s : system) :
  arduino (ctl s) <> Some true ->
  arduino (ctl (fst (process_command cmd s))) = arduino (ctl s)
  /\ written (log (ctl (fst (process_command cmd s)))) = written (log (ctl s)).
Proof.
  intros H. unfold process_command. split_cases; cbn [fst];
    unfold update, create_task, led_on, led_off, led_blink, led_toggle,
      buzzer_on, buzzer_off, buzzer_beep, lcd_write, lcd_clear,
      display_number, display_clear, display_brightness, ultrasonic_start,
      ultrasonic_stop, ultrasonic_read, get_status, stop_clock, stop_timer,
      stop_lcd_clock, sleeping;
    cbn [ctl]; closed H; cbn; rewrite ?written_snoc_sleep; auto.
Qed.

Lemma resume_closed (now : wallclock) (t : task) (c : controller) :
  arduino c <> Some true ->
  arduino (fst (resume now t c)) = arduino c
  /\ written (log (fst (resume now t c))) = written (log c).
Proof.
  intros H.
  destruct t as [| | m sec | n | [| k] | | |]; cbn [resume];
    unfold clock_loop, countdown_loop, lcd_clock_loop, buzzer_beep, sleeping;
    split_cases; closed H; cbn; closed H; cbn;
    rewrite ?written_snoc_sleep; auto.
Qed.

Lemma do_step_closed (st : step) (s : system) :
  arduino (ctl s) <> Some true ->
  arduino (ctl (do_step st s)) = arduino (ctl s)
  /\ written (log (ctl (do_step st s))) = written (log (ctl s)).
Proof.
  intros H. destruct st as [cmd | i now]; cbn [do_step].
  - now apply process_command_closed.
  - unfold wake. destruct (nth_error (tasks s) i) as [t |]; [| auto].
    pose proof (resume_closed now t (ctl s) H) as R.
    destruct (resume now t (ctl s)) as [c t']. exact R.
Qed.

Lemma run_closed (steps : list step) (s : system) :
  arduino (ctl s) <> Some true ->
  arduino (ctl (run steps s)) = arduino (ctl s)
  /\ written (log (ctl (run steps s))) = written (log (ctl s)).
Proof.
  revert s. induction steps as [| st steps IH]; intros s H; [auto |].
  change (run (st :: steps) s) with (run steps (do_step st s)).
  destruct (do_step_closed st s H) as [A W].
  destruct (IH (do_step st s)) as [A' W']; [now rewrite A |].
  rewrite A', W', A, W. auto.
Qed.

(** X15.  Once the controller is closed nothing is written to the port
    any more, whatever is typed and whichever coroutines run afterwards;
    the port stays closed, and every routine that is created or that
    sleeps in its loop ends at its next turn. *)
Theorem closed_console_never_writes (steps : list step) (s : system) :
  let s' := run steps (update close s) in
  written (log (ctl s')) = written (log (ctl s))
  /\ arduino (ctl s') <> Some true
  /\ forall now t,
       In t [Clock_created; Clock_sleeping; Lcd_clock_created;
             Lcd_clock_sleeping] \/ (exists n, t = Countdown_sleeping n)
       \/ (exists m sec, t = Countdown_created m sec) ->
       snd (resume now t (ctl s')) = Finished.
Proof.
  assert (Hc : arduino (ctl (update close s)) <> Some true).
  { cbn. now destruct (arduino (ctl s)). }
  destruct (run_closed steps (update close s) Hc) as [A W].
  destruct (run_port steps (update close s)) as [_ R].
  cbv zeta. rewrite A, W. split; [reflexivity |]. split; [exact Hc |].
  change (running (ctl (update close s))) with false in R.
  intros now t [Hin | [[n ->] | (m & sec & ->)]].
  - cbn in Hin.
    destruct Hin as [<- | [<- | [<- | [<- | []]]]]; cbn [resume];
      unfold clock_loop, lcd_clock_loop; cbn; rewrite R;
      now rewrite ?andb_false_r.
  - cbn [resume]. unfold countdown_loop. rewrite R.
    now rewrite andb_false_r.
  - cbn [resume]. unfold countdown_loop. cbn. rewrite R.
    now rewrite andb_false_r.
Qed.

Lemma lstrip_blank (s : string) :
  forallb is_space (list_ascii_of_string s) = true -> lstrip s = "".
Proof.
  induction s as [| c s IH]; simpl; [reflexivity |].
  intros H. apply andb_true_iff in H. destruct H as [Hc Hs].
  rewrite Hc. now apply IH.
Qed.

Ltac names :=
  repeat match goal with
         | H : String.eqb _ _ = true |- _ => apply String.eqb_eq in H; subst
         end.

(** The flag [process_command] returns. *)
Lemma process_command_flag (cmd : string) (s : system) :
  snd (process_command cmd s) = negb (is_exit cmd).
Proof.
  unfold process_command, is_exit.
  destruct (split_words (lower (strip cmd))) as [| device args];
    [reflexivity |].
  split_cases; names; reflexivity.
Qed.

Lemma process_command_exit (cmd : string) (s : system) :
  is_exit cmd = true -> fst (process_command cmd s) = s.
Proof.
  unfold process_command, is_exit.
  destruct (split_words (lower (strip cmd))) as [| device args];
    [discriminate |].
  intros He. apply orb_true_iff in He.
  destruct He as [He | He]; apply String.eqb_eq in He; subst device;
    reflexivity.
Qed.

(** X16.  [process_command] answers false exactly for the commands whose
    first word, in any letter case, is [exit] or [quit], and then it has
    done nothing; no other input ends the session.  Input that is empty or
    all white space does nothing. *)
Theorem console_stops_only_on_exit (cmd : string) (s : system) :
  snd (process_command cmd s) = negb (is_exit cmd)
  /\ (is_exit cmd = true -> fst (process_command cmd s) = s)
  /\ (forallb is_space (list_ascii_of_string cmd) = true ->
      process_command cmd s = (s, true)).
Proof.
  split; [apply process_command_flag | split; [apply process_command_exit |]].
  intros H. unfold process_command, strip.
  rewrite (lstrip_blank cmd H). reflexivity.
Qed.


Lemma append_nothing (s : string) : s ++ "" = s.
Proof. induction s as [| c s IH]; simpl; [reflexivity | now rewrite IH]. Qed.

Lemma string_of_snoc (l : list ascii) (c : ascii) (h : string) :
  string_of_list_ascii (l ++ [c]) ++ h = string_of_list_ascii l ++ String c h.
Proof. induction l as [| d l IH]; simpl; [reflexivity | now rewrite IH]. Qed.

(** A word that has begun is the head of the words that follow. *)
Lemma words_from_begun (w : list ascii) (x : string) :
  w <> [] ->
  exists h t, words_from w x = (string_of_list_ascii (rev w) ++ h) :: t.
Proof.
  revert w. induction x as [| c x IH]; intros w Hw.
  - exists "", []. simpl. destruct w; [contradiction |].
    now rewrite append_nothing.
  - simpl. destruct (is_space c).
    + exists "". eexists. destruct w; [contradiction |].
      now rewrite append_nothing.
    + destruct (IH (c :: w)) as (h & t & E); [discriminate |].
      exists (String c h), t. rewrite E. f_equal. simpl.
      apply string_of_snoc.
Qed.

(** X18.  The console writes the text it was given after [lcd 1:], in
    lower case and without the white space around the command, and does
    not cut it to the sixteen columns of the display. *)
Theorem console_lcd_text_is_lowered_not_cut (cmd text : string) (s : system) :
  lower (strip cmd) = "lcd 1:" ++ text ->
  arduino (ctl s) = Some true ->
  let s' := fst (process_command cmd s) in
  log (ctl s') = (log (ctl s) ++ [Write ("LCD:LINE1:" ++ text)])%list
  /\ tasks s' = tasks s.
Proof.
  intros H Ha s'. unfold s', process_command. rewrite H.
  destruct (words_from_begun [":"; "1"]%char text) as (h & t & E); [discriminate |].
  unfold split_words. cbn [append words_from is_space N_of_ascii].
  cbn. cbn in E. rewrite E. cbn.
  assert (P : after_first "1:" ("lcd 1:" ++ text) = Some text).
  { cbn. now destruct text. }
  cbn in P. rewrite P.
  unfold update, lcd_write, send_command. cbn. rewrite Ha. cbn.
  destruct h; cbn; auto.
Qed.

Lemma main_loop_wakes (pre rest : list step) (s : system) :
  forallb (fun st => negb (exits st)) pre = true ->
  main_loop (pre ++ rest) s = main_loop rest (run pre s).
Proof.
  revert s. induction pre as [| st pre IH]; intros s H; [reflexivity |].
  simpl in H. apply andb_true_iff in H. destruct H as [Hst Hpre].
  change (run (st :: pre) s) with (run pre (do_step st s)).
  rewrite <- (IH _ Hpre). destruct st as [cmd | i now]; [| reflexivity].
  cbn [app main_loop do_step].
  pose proof (process_command_flag cmd s) as E.
  cbn in Hst. rewrite <- E in Hst.
  destruct (process_command cmd s) as [s1 go]. cbn in Hst. rewrite Hst.
  reflexivity.
Qed.

(** X19.  A session: the commands typed before the first [exit] or [quit]
    are processed in order, whatever comes after it is ignored, and the
    session ends with the flag down and the port closed.  The same holds
    at the end of the input when nobody typed [exit]. *)
Theorem session_ends_at_first_exit
  (pre post : list step) (cmd : string) (s : system) :
  forallb (fun st => negb (exits st)) pre = true ->
  arduino (ctl s) = Some true ->
  main_loop pre s = update close (run pre s)
  /\ (is_exit cmd = true ->
      main_loop (pre ++ Command cmd :: post) s = update close (run pre s))
  /\ running (ctl (main_loop pre s)) = false
  /\ arduino (ctl (main_loop pre s)) = Some false.
Proof.
  intros Hpre Ha.
  assert (M : main_loop pre s = update close (run pre s)).
  { rewrite <- (app_nil_r pre) at 1. now rewrite main_loop_wakes. }
  split; [exact M |]. split.
  - intros He. rewrite main_loop_wakes by exact Hpre. cbn [main_loop].
    pose proof (process_command_flag cmd (run pre s)) as E.
    pose proof (process_command_exit cmd (run pre s)) as F.
    rewrite He in E. specialize (F He).
    destruct (process_command cmd (run pre s)) as [s1 go].
    cbn in E, F. now subst.
  - rewrite M. cbn. split; [reflexivity |].
    destruct (run_port pre s) as [A _]. now rewrite A, Ha.
Qed.

End Console.

(* ===================================================================== *)
(** * The further properties at concrete inputs                           *)
(* ===================================================================== *)

Section MoreInstances.
Import Py Server.

(** A registration on an open connection only adds its rule. *)
Lemma tools_only_add_for_a_registration :
  let w' := exec (call (fun _ => None) (When_timer_finishes "buzzer_beep" "500"))
              ready in
  (exists rules, pending_actions w' = (pending_actions ready ++ rules)%list)
  /\ (exists cmds, sent w' = (sent ready ++ cmds)%list)
  /\ executed w' = executed ready.
Proof.
  apply (tools_only_add (fun _ => None)
           (When_timer_finishes "buzzer_beep" "500") ready).
  reflexivity.
Defined.


(** The live display of the distance, asked for with no port. *)
Lemma nothing_happens_with_no_port :
  let w := initial_world 0%Q false in
  (sent (exec (call (fun _ => None) Show_live_ultrasonic_on_lcd) w) = sent w
   /\ executed (exec (call (fun _ => None) Show_live_ultrasonic_on_lcd) w)
      = executed w
   /\ reachable (exec (call (fun _ => None) Show_live_ultrasonic_on_lcd) w)
      = false)
  /\ (registration_of Show_live_ultrasonic_on_lcd = None ->
      is_clear_all Show_live_ultrasonic_on_lcd = false ->
      exec (call (fun _ => None) Show_live_ultrasonic_on_lcd) w = w)
  /\ (forall now incoming,
        exec (monitor_arduino_status (fun _ => None) now incoming) w = w).
Proof.
  apply (nothing_happens_without_connection (fun _ => None)
           Show_live_ultrasonic_on_lcd (initial_world 0%Q false)).
  reflexivity.
Defined.

(** A beep rule and a clock rule, then the end of a countdown and a clock
    report that matches nothing. *)
Lemma rule_engine_over_two_events :
  let w := exec (when_time_equals "07:15:00" "led_blink" "200")
             (exec (when_timer_finishes "buzzer_beep" "500") ready) in
  let ds := [(1%Q, TimerFinished); (2%Q, ClockReport "07:14:59")] in
  let w' := run_events ds w in
  pending_actions w' = filter (survives ds) (pending_actions w)
  /\ executed w' = (executed w ++ fired ds (pending_actions w))%list
  /\ Permutation (pending_actions w)
       (pending_actions w' ++ fired ds (pending_actions w)).
Proof.
  apply (rule_engine_over_events
           [(1%Q, TimerFinished); (2%Q, ClockReport "07:14:59")]
           (exec (when_time_equals "07:15:00" "led_blink" "200")
              (exec (when_timer_finishes "buzzer_beep" "500") ready))).
  reflexivity.
Defined.

(** The rule of the live display, over two distance reports. *)
Lemma distance_echo_rule_over_two_reports :
  let r := {| action_trigger := distance_update;
              action_type := "update_lcd_distance";
              action_params := no_params |} in
  let w := exec show_live_ultrasonic_on_lcd ready in
  let ds := [(1%Q, DistanceReport (FFin 5)); (2%Q, DistanceReport (FFin 50))] in
  occurrences r (pending_actions (run_events ds w))
  = occurrences r (pending_actions w)
  /\ occurrences r (executed (run_events ds w)) = occurrences r (executed w)
  /\ sent (deliver w (3%Q, DistanceReport (FFin 7)))
     = (sent w
        ++ map (fun _ =>
                  ("LCD:LINE2:" ++ format_fixed 2 (FFin 7) ++ " cm       ")%string)
             (filter is_distance_update (pending_actions w))
        ++ flat_map commands_of
             (filter (matches (DistanceReport (FFin 7))) (pending_actions w)))%list.
Proof.
  apply (distance_echo_rule_persists
           {| action_trigger := distance_update;
              action_type := "update_lcd_distance";
              action_params := no_params |}
           [(1%Q, DistanceReport (FFin 5)); (2%Q, DistanceReport (FFin 50))]
           3%Q (FFin 7) (exec show_live_ultrasonic_on_lcd ready)).
  - reflexivity.
  - reflexivity.
Defined.


(** A number the numeric display cannot show. *)
Lemma number_out_of_range_sends_nothing :
  exec (call (fun _ => None) (Display_number 10000)) ready = ready.
Proof.
  apply (error_text_means_nothing_done (fun _ => None) (Display_number 10000)
           ready "Error: Number must be between -999 and 9999").
  - reflexivity.
  - reflexivity.
Defined.


(** A quarter past seven with a newline after it, and the clock report
    of that second. *)
Lemma quarter_past_seven_with_newline :
  let target := "07:15:00" ++ String "010" "" in
  let inputs := [(1%Q, Some "CLOCK:LCD:07:15:00")] in
  fst (when_time_equals target "buzzer_beep" "500" ready)
  = fst (when_time_equals "07:15:00" "buzzer_beep" "500" ready)
  /\ forall w,
       when_time_equals target "buzzer_beep" "500" ready = (Ok Confirmed, w) ->
       exists r,
         action_trigger r = time_equals target
         /\ pending_actions w = (pending_actions ready ++ [r])%list
         /\ occurrences r
              (pending_actions (run_monitor (fun _ => None) inputs w))
            = occurrences r (pending_actions w)
         /\ occurrences r (executed (run_monitor (fun _ => None) inputs w))
            = occurrences r (executed w).
Proof.
  apply (time_with_newline_is_accepted_and_never_fires (fun _ => None)
           "07:15:00" "buzzer_beep" "500" ready
           [(1%Q, Some "CLOCK:LCD:07:15:00")]).
  - reflexivity.
  - reflexivity.
  - reflexivity.
Defined.


(** Two minutes and five seconds on the numeric display. *)
Lemma countdown_display_of_125_seconds :
  exists t,
    countdown_display 125 ready
    = (Ok Confirmed,
       set_sent (fun l => (l ++ [("TM1637:NUM:" ++ t)%string])%list) ready)
    /\ String.length t = 4%nat
    /\ int (take 2 t) = Some (125 / 60)
    /\ int (drop 2 t) = Some (125 mod 60).
Proof.
  apply (countdown_display_sends_four_digits 125 ready).
  - reflexivity.
  - lia.
Defined.

(** A reading of five centimetres. *)
Lemma proximity_alert_at_five_cm :
  exists cmds,
    sent (exec (proximity_alert (fun _ => Some (FFin 5)) (Some "ULTRA:5.0")) ready)
    = (sent ready ++ "ULTRA:READ" :: cmds)%list
    /\ (In "BUZZER:ON" cmds
        <-> float_ge (FFin 5) (float_of_int 0) = true
            /\ float_lt (FFin 5) (float_of_int 10) = true)
    /\ (FFin 5 = FNaN ->
        fst (proximity_alert (fun _ => Some (FFin 5)) (Some "ULTRA:5.0") ready)
        = Ok Confirmed
        /\ cmds = ["LED:OFF"; "BUZZER:OFF"; "LCD:LINE1:Clear";
                   "LCD:LINE2:nan cm"]).
Proof.
  apply (proximity_alert_levels (fun _ => Some (FFin 5)) (Some "ULTRA:5.0")
           (FFin 5) ready).
  - reflexivity.
  - reflexivity.
Defined.

End MoreInstances.

Section MoreConsoleInstances.
Import Py Control.

(** [display timer:0:90]: ninety-one values, from 0130 down. *)
Lemma countdown_from_ninety_seconds :
  (0 <= 0 * 60 + 90 ->
   exists c',
     run_alone (Z.to_nat (0 * 60 + 90) + 4 + 0) noon (Countdown_created 0 90)
       connected = (c', Finished)
     /\ log c' = (log connected ++ countdown_log (Z.to_nat (0 * 60 + 90)))%list
     /\ List.length (display_writes (countdown_log (Z.to_nat (0 * 60 + 90))))
        = S (Z.to_nat (0 * 60 + 90))
     /\ timer_active c' = false)
  /\ (0 * 60 + 90 < 0 ->
      resume noon (Countdown_created 0 90) connected
      = (with_timer_active false connected, Finished)).
Proof.
  apply (countdown_from_any_start 0 90 0 noon connected).
  - reflexivity.
  - reflexivity.
Defined.

(** [display stop] in capitals and with blanks around it. *)
Lemma display_stop_in_capitals :
  let s' := fst (process_command "  Display STOP " started) in
  tasks s' = tasks started
  /\ log (ctl s') = log (ctl started)
  /\ resume noon Clock_sleeping (ctl s') = (ctl s', Finished)
  /\ (forall n, resume noon (Countdown_sleeping n) (ctl s') = (ctl s', Finished))
  /\ lcd_clock_active (ctl s') = lcd_clock_active (ctl started)
  /\ (forall k, arduino (ctl started) = Some true ->
        log (fst (resume noon (Countdown_beeping (S k)) (ctl s')))
        = (log (ctl started) ++ [Write "BUZZER:BEEP:300"; Sleep 500])%list).
Proof.
  apply (display_stop_ends_sleeping_routines "  Display STOP " [] started noon).
  reflexivity.
Defined.

(** [quit] in capitals, with a word after it. *)
Lemma quit_in_capitals :
  snd (process_command "  QUIT now" started) = negb (is_exit "  QUIT now")
  /\ (is_exit "  QUIT now" = true ->
      fst (process_command "  QUIT now" started) = started)
  /\ (forallb is_space (list_ascii_of_string "  QUIT now") = true ->
      process_command "  QUIT now" started = (started, true)).
Proof. apply (console_stops_only_on_exit "  QUIT now" started). Defined.


(** Twenty-five characters for the sixteen columns of the display. *)
Lemma console_lcd_long_text :
  let s' := fst (process_command "LCD 1:Hello World, How Are You  " started) in
  log (ctl s')
  = (log (ctl started) ++ [Write ("LCD:LINE1:" ++ "hello world, how are you")])%list
  /\ tasks s' = tasks started.
Proof.
  apply (console_lcd_text_is_lowered_not_cut "LCD 1:Hello World, How Are You  "
           "hello world, how are you" started).
  - reflexivity.
  - reflexivity.
Defined.

(** A session of two commands, then [EXIT], then one more command. *)
Lemma session_of_two_commands :
  let pre := [Command "led on"; Command "display clock"; Wake 0 noon] in
  main_loop pre started = update close (run pre started)
  /\ (is_exit "EXIT" = true ->
      main_loop (pre ++ Command "EXIT" :: [Command "buzzer on"]) started
      = update close (run pre started))
  /\ running (ctl (main_loop pre started)) = false
  /\ arduino (ctl (main_loop pre started)) = Some false.
Proof.
  apply (session_ends_at_first_exit
           [Command "led on"; Command "display clock"; Wake 0 noon]
           [Command "buzzer on"] "EXIT" started).
  - reflexivity.
  - reflexivity.
Defined.

End MoreConsoleInstances.
